(** * Thorlabs KDC101 protocol layer: a shallow embedding and its properties

    The development follows the Go sources:
    - [internal/utils]            little-endian conversions ([Utils]);
    - [protocol/utils.go]         calibration tables and unit conversion;
    - [protocol/protocol.go]      message framing over the [unicomm] transport;
    - [protocol] command files    the controller's command catalogue;
    - [thorlabskdc101.go]         the constructor [New].

    Fixed-width integers are values of [Z] with the wrap-around written out,
    bytes are [Z] in [0, 256), [float64] is Rocq's primitive binary64 float,
    a byte slice is the list of its elements, with the rest of its backing
    array (up to its capacity) given apart where a slice expression needs
    it, and a Go run-time panic (index or slice bound out of range) is the
    outcome [Panic]. *)

From Stdlib Require Import ZArith String List Bool Lia Floats.
Import ListNotations.
Local Open Scope Z_scope.
Set Warnings "-inexact-float".

(** ** Fixed-width integers *)

Definition uint8 (z : Z) : Z := z mod 2 ^ 8.
Definition uint16 (z : Z) : Z := z mod 2 ^ 16.
Definition uint32 (z : Z) : Z := z mod 2 ^ 32.

Definition int16 (z : Z) : Z :=
  let w := z mod 2 ^ 16 in if w <? 2 ^ 15 then w else w - 2 ^ 16.

Definition int32 (z : Z) : Z :=
  let w := z mod 2 ^ 32 in if w <? 2 ^ 31 then w else w - 2 ^ 32.

Definition is_byte (b : Z) : Prop := 0 <= b < 256.
Definition is_uint16 (z : Z) : Prop := 0 <= z < 2 ^ 16.
Definition is_uint32 (z : Z) : Prop := 0 <= z < 2 ^ 32.
Definition is_int32 (z : Z) : Prop := - 2 ^ 31 <= z < 2 ^ 31.

(** ** Outcomes of a call

    A Go function returning [(value, error)] either yields a value, yields
    an error, or panics at run time. *)

Inductive error : Type :=
| ErrChannelNotSupported            (* "KDC101 just supports channel 1" *)
| ErrInvalidResponseLength          (* "invalid response length" *)
| ErrInvalidDataLength (n : Z)      (* fmt.Errorf("invalid data length: %d", n) *)
| ErrHwInfoLength                   (* fmt.Errorf("invalid response length") in GetInformation *)
| ErrTransport (msg : string).      (* an error returned by the transport *)

Inductive outcome (A : Type) : Type :=
| Ok (a : A)
| Err (e : error)
| Panic.

Arguments Ok {A} a.
Arguments Err {A} e.
Arguments Panic {A}.

(** ** Byte slices *)

(** [data[i]]: panics when [i] is out of range. *)
Definition index (data : list Z) (i : nat) : option Z := nth_error data i.

(** [data[lo:hi]]: panics unless [lo <= hi <= cap(data)].  [data] holds the
    [len(data)] elements of the slice and [spare] the bytes of its backing
    array from its length up to its capacity, so a bound beyond the length
    but within the capacity reaches into [spare]. *)
Definition slice (data spare : list Z) (lo hi : nat) : option (list Z) :=
  if (lo <=? hi)%nat && (hi <=? length data + length spare)%nat
  then Some (firstn (hi - lo) (skipn lo (data ++ spare)))
  else None.

(** ** internal/utils: little-endian conversions *)

Module Utils.

(** [binary.LittleEndian.Uint16]: needs two bytes, reads the first two. *)
Definition LittleEndian_Uint16 (b : list Z) : option Z :=
  match b with
  | b0 :: b1 :: _ => Some (Z.lor b0 (Z.shiftl b1 8))
  | _ => None
  end.

(** [binary.LittleEndian.Uint32]: needs four bytes, reads the first four. *)
Definition LittleEndian_Uint32 (b : list Z) : option Z :=
  match b with
  | b0 :: b1 :: b2 :: b3 :: _ =>
      Some (Z.lor (Z.lor (Z.lor b0 (Z.shiftl b1 8)) (Z.shiftl b2 16)) (Z.shiftl b3 24))
  | _ => None
  end.

(** [binary.LittleEndian.PutUint16] into [make([]byte, 2)]. *)
Definition LittleEndian_PutUint16 (v : Z) : list Z :=
  [uint8 v; uint8 (Z.shiftr v 8)].

(** [binary.LittleEndian.PutUint32] into [make([]byte, 4)]. *)
Definition LittleEndian_PutUint32 (v : Z) : list Z :=
  [uint8 v; uint8 (Z.shiftr v 8); uint8 (Z.shiftr v 16); uint8 (Z.shiftr v 24)].

Definition BytesToLong (data : list Z) : option Z :=
  option_map int32 (LittleEndian_Uint32 data).

Definition LongToBytes (value : Z) : list Z :=
  LittleEndian_PutUint32 (uint32 value).

Definition BytesToDword (data : list Z) : option Z :=
  LittleEndian_Uint32 data.

Definition DwordToBytes (value : Z) : list Z :=
  LittleEndian_PutUint32 value.

Definition BytesToWord (data : list Z) : option Z :=
  LittleEndian_Uint16 data.

Definition WordToBytes (value : Z) : list Z :=
  LittleEndian_PutUint16 value.

Definition BytesToShort (data : list Z) : option Z :=
  option_map int16 (LittleEndian_Uint16 data).

Definition ShortToBytes (value : Z) : list Z :=
  LittleEndian_PutUint16 (uint16 value).

End Utils.

(** ** float64 and its conversions *)

Definition float64 : Type := float.

(** The integer part of a finite float, rounded toward zero; [None] for NaN
    and the infinities. *)
Definition float_trunc (f : float64) : option Z :=
  match Prim2SF f with
  | S754_zero _ => Some 0
  | S754_finite s m e =>
      let a := if 0 <=? e then Z.shiftl (Zpos m) e else Z.shiftr (Zpos m) (- e) in
      Some (if s then - a else a)
  | _ => None
  end.

(** [int32(f)] on a float: the fraction is discarded.  When the integer part
    does not fit (or [f] is NaN or infinite) Go leaves the result
    implementation-dependent; the embedding takes what the amd64 compiler
    produces (a 32-bit truncating conversion), the value [-2^31]. *)
Definition float_to_int32 (f : float64) : Z :=
  match float_trunc f with
  | Some z => if (- 2 ^ 31 <=? z) && (z <? 2 ^ 31) then z else - 2 ^ 31
  | None => - 2 ^ 31
  end.

(** [uint32(f)] on a float: on amd64 a 64-bit truncating conversion whose
    low 32 bits are kept, so an integer part within the signed 64-bit range
    wraps modulo [2^32] (a negative one included), and anything else (NaN,
    the infinities, a magnitude of [2^63] or more) gives [0]. *)
Definition float_to_uint32 (f : float64) : Z :=
  match float_trunc f with
  | Some z => if (- 2 ^ 63 <=? z) && (z <? 2 ^ 63) then uint32 z else 0
  | None => 0
  end.

(** [float64(n)] on an integer of at most 32 bits (always exact). *)
Definition float_of_int (n : Z) : float64 :=
  match n with
  | Z0 => PrimFloat.of_uint63 (Uint63.of_Z 0)
  | Zpos _ => PrimFloat.of_uint63 (Uint63.of_Z n)
  | Zneg p => PrimFloat.opp (PrimFloat.of_uint63 (Uint63.of_Z (Zpos p)))
  end.

(** ** protocol/utils.go: calibration tables *)

(** A Go [map[string]float64] literal; indexing a missing key yields [0]. *)
Fixpoint map_get (m : list (string * float64)) (key : string) : option float64 :=
  match m with
  | [] => None
  | (k, v) :: rest => if String.eqb k key then Some v else map_get rest key
  end.

Definition map_index (m : list (string * float64)) (key : string) : float64 :=
  match map_get m key with
  | Some v => v
  | None => 0%float
  end.

Definition MotorTFactor : list (string * float64) :=
  [ ("Brushed"%string,   (2048 / 6000000)%float);
    ("Brushless"%string, (2048 / 6000000)%float) ].

Definition StageScalingFactor : list (string * float64) :=
  [ ("MTS25-Z8"%string, 34554.96%float);
    ("MTS50-Z8"%string, 34554.96%float);
    ("Z8xx"%string,     34554.96%float);
    ("Z6xx"%string,     24600%float);
    ("PRM1-Z8"%string,  1919.6418578623391%float);
    ("PRMTZ8"%string,   1919.6418578623391%float);
    ("CR1-Z7"%string,   12288%float);
    ("KVS30"%string,    20000%float) ].

(** ** protocol/protocol.go: messages *)

(** [type Endpoint byte] *)
Definition Endpoint : Type := Z.

Definition Host : Endpoint := 0x01.
Definition Rack : Endpoint := 0x02.
Definition GenericUnit : Endpoint := 0x50.

Module HeaderMessage.
Record t : Type := mk {
  ID : Z;                    (* uint16 *)
  Parameter1 : Z;            (* byte *)
  Parameter2 : Z;            (* byte *)
  Destination : Endpoint;
  Source : Endpoint
}.
End HeaderMessage.

Module DataMessage.
Record t : Type := mk {
  ID : Z;                    (* uint16 *)
  DataLength : Z;            (* uint16 *)
  Destination : Endpoint;
  Source : Endpoint;
  Data : list Z
}.

Definition with_Data (msg : t) (data : list Z) : t :=
  mk (ID msg) (DataLength msg) (Destination msg) (Source msg) data.

(** The values a Go [DataMessage] can hold. *)
Definition wf (msg : t) : Prop :=
  is_uint16 (ID msg) /\ is_uint16 (DataLength msg) /\
  is_byte (Destination msg) /\ is_byte (Source msg) /\
  Forall is_byte (Data msg).
End DataMessage.

(** ** The transport: the [unicomm.Unicomm] interface

    The transport is an external collaborator; its methods are taken as an
    interface over a state [T].  [comm_Read n] returns the bytes read (the
    elements of the returned slice) or an error, [comm_Write] an optional
    error.  [comm_Spare], read in the state a read leaves, is the rest of the
    backing array of the slice that read returned: the bytes from its length
    up to its capacity (empty when the buffer was allocated to size). *)

Class Unicomm (T : Type) : Type := {
  comm_Connect : T -> T * option error;
  comm_Disconnect : T -> T * option error;
  comm_IsConnected : T -> bool;
  comm_Write : list Z -> T -> T * option error;
  comm_Read : nat -> T -> T * outcome (list Z);
  comm_Spare : T -> list Z
}.

Record KDC101 (T : Type) : Type := mkKDC101 {
  Communication : T;
  StageType : string;
  MotorType : string
}.

Arguments mkKDC101 {T} _ _ _.
Arguments Communication {T} _.
Arguments StageType {T} _.
Arguments MotorType {T} _.

Definition with_Communication {T} (k : KDC101 T) (c : T) : KDC101 T :=
  mkKDC101 c (StageType k) (MotorType k).

(** ** protocol/utils.go: unit conversion *)

Section Conversion.
Context {T : Type}.
Variable k : KDC101 T.

Definition PositionToCounts (position : float64) : Z :=
  let encCount := map_index StageScalingFactor (StageType k) in
  float_to_int32 (position * encCount)%float.

Definition CountsToPosition (counts : Z) : float64 :=
  let encCount := map_index StageScalingFactor (StageType k) in
  (float_of_int counts / encCount)%float.

Definition VelocityToCounts (velocity : float64) : Z :=
  let encCount := map_index StageScalingFactor (StageType k) in
  let T := map_index MotorTFactor (MotorType k) in
  float_to_uint32 (velocity * T * 65536 * encCount)%float.

Definition CountsToVelocity (counts : Z) : float64 :=
  let encCount := map_index StageScalingFactor (StageType k) in
  let T := map_index MotorTFactor (MotorType k) in
  (float_of_int counts / (T * 65536 * encCount))%float.

Definition AccelerationToCounts (acceleration : float64) : Z :=
  let encCount := map_index StageScalingFactor (StageType k) in
  let T := map_index MotorTFactor (MotorType k) in
  float_to_uint32 (acceleration * (T * T) * 65536 * encCount)%float.

Definition CountsToAcceleration (counts : Z) : float64 :=
  let encCount := map_index StageScalingFactor (StageType k) in
  let T := map_index MotorTFactor (MotorType k) in
  (float_of_int counts / (T * T * 65536 * encCount))%float.
End Conversion.

(** ** The monad of controller methods

    A method with receiver [k *KDC101] is a function of the controller state
    returning the new state and an outcome. *)

Definition M (T A : Type) : Type := KDC101 T -> KDC101 T * outcome A.

Definition ret {T A} (a : A) : M T A := fun k => (k, Ok a).
Definition fail {T A} (e : error) : M T A := fun k => (k, Err e).
Definition panic {T A} : M T A := fun k => (k, Panic).

Definition bind {T A B} (c : M T A) (f : A -> M T B) : M T B :=
  fun k =>
    match c k with
    | (k', Ok a) => f a k'
    | (k', Err e) => (k', Err e)
    | (k', Panic) => (k', Panic)
    end.

(** A pure operation that may panic. *)
Definition must {T A} (o : option A) : M T A :=
  match o with
  | Some a => ret a
  | None => panic
  end.

(** The receiver's read-only fields. *)
Definition self {T} : M T (KDC101 T) := fun k => (k, Ok k).

Declare Scope go_scope.
Delimit Scope go_scope with go.
Notation "x <- c ;; f" := (bind c (fun x => f))
  (at level 61, c at next level, right associativity) : go_scope.
Notation "c ;;; f" := (bind c (fun _ => f))
  (at level 61, right associativity) : go_scope.
Local Open Scope go_scope.

Section Protocol.
Context {T : Type} `{Unicomm T}.

(** [time.Sleep]: no effect on the controller or the transport. *)
Definition Sleep (ms : Z) : M T unit := ret tt.

Definition Communication_Write (bytes : list Z) : M T unit :=
  fun k =>
    let (c, r) := comm_Write bytes (Communication k) in
    (with_Communication k c,
     match r with None => Ok tt | Some e => Err e end).

Definition Communication_Read (n : nat) : M T (list Z) :=
  fun k =>
    let (c, r) := comm_Read n (Communication k) in
    (with_Communication k c, r).

Definition Connect : M T unit :=
  fun k =>
    let (c, r) := comm_Connect (Communication k) in
    (with_Communication k c,
     match r with None => Ok tt | Some e => Err e end).

Definition Disconnect : M T unit :=
  fun k =>
    let (c, r) := comm_Disconnect (Communication k) in
    (with_Communication k c,
     match r with None => Ok tt | Some e => Err e end).

Definition IsConnected (k : KDC101 T) : bool :=
  comm_IsConnected (Communication k).

Definition WriteHeaderOnly (msg : HeaderMessage.t) : M T unit :=
  let bytes :=
    [ uint8 (Z.land (HeaderMessage.ID msg) 0x00FF);
      uint8 (Z.shiftr (HeaderMessage.ID msg) 8);
      HeaderMessage.Parameter1 msg;
      HeaderMessage.Parameter2 msg;
      HeaderMessage.Destination msg;
      HeaderMessage.Source msg ] in
  Communication_Write bytes.

Definition WriteData (msg : DataMessage.t) : M T unit :=
  let bytes :=
    [ uint8 (Z.land (DataMessage.ID msg) 0x00FF);
      uint8 (Z.shiftr (DataMessage.ID msg) 8);
      uint8 (Z.land (DataMessage.DataLength msg) 0x00FF);
      uint8 (Z.shiftr (DataMessage.DataLength msg) 8);
      Z.lor (DataMessage.Destination msg) 0x80;
      DataMessage.Source msg ] in
  let bytes := bytes ++ DataMessage.Data msg in
  Communication_Write bytes.

Definition ReadHeaderOnly : M T HeaderMessage.t :=
  response <- Communication_Read 6 ;;
  r1 <- must (index response 1) ;;
  r0 <- must (index response 0) ;;
  r2 <- must (index response 2) ;;
  r3 <- must (index response 3) ;;
  r4 <- must (index response 4) ;;
  r5 <- must (index response 5) ;;
  ret (HeaderMessage.mk (Z.lor (Z.shiftl r1 8) r0) r2 r3 r4 r5).

Definition ReadData : M T DataMessage.t :=
  response <- Communication_Read 6 ;;
  r1 <- must (index response 1) ;;
  r0 <- must (index response 0) ;;
  r3 <- must (index response 3) ;;
  r2 <- must (index response 2) ;;
  r4 <- must (index response 4) ;;
  r5 <- must (index response 5) ;;
  let msg := DataMessage.mk (Z.lor (Z.shiftl r1 8) r0)
                            (Z.lor (Z.shiftl r3 8) r2) r4 r5 [] in
  if DataMessage.DataLength msg <? 1
  then fail (ErrInvalidDataLength (DataMessage.DataLength msg))
  else
    data <- Communication_Read (Z.to_nat (DataMessage.DataLength msg)) ;;
    ret (DataMessage.with_Data msg data).

Definition RequestHeaderOnly (msg : HeaderMessage.t) : M T HeaderMessage.t :=
  WriteHeaderOnly msg ;;;
  Sleep 15 ;;;
  ReadHeaderOnly.

Definition RequestData (msg : HeaderMessage.t) : M T DataMessage.t :=
  WriteHeaderOnly msg ;;;
  Sleep 50 ;;;
  ReadData.

End Protocol.

(** ** The command catalogue *)

Module VelocityProfile.
Record t : Type := mk {
  MinVelocity : float64;
  MaxVelocity : float64;
  Acceleration : float64
}.
End VelocityProfile.

Module JogParameters.
Record t : Type := mk {
  Mode : Z;                  (* uint16 *)
  StepSize : float64;
  MinVelocity : float64;
  Acceleration : float64;
  MaxVelocity : float64;
  StopMode : Z               (* uint16 *)
}.
End JogParameters.

Module HwInformation.
Record t : Type := mk {
  SerialNumber : Z;          (* int32 *)
  Model : list Z;            (* string(data[4:12]) *)
  Type_ : Z;                 (* uint16 *)
  FirmwareVersion : list Z;
  HardwareVersion : Z;       (* uint16 *)
  ModState : Z;              (* uint16 *)
  NumberChannels : Z         (* uint16 *)
}.
End HwInformation.

Module DCStatusUpdate.
Record t : Type := mk {
  Channel : Z;               (* uint16 *)
  Position : Z;              (* int32 *)
  Velocity : Z;              (* uint16 *)
  Current : Z;               (* int16 *)
  StatusBits : Z             (* uint32 *)
}.
End DCStatusUpdate.

Module DCStatusBits.
Record t : Type := mk {
  CWHardLimit : bool;
  CCWHardLimit : bool;
  CWSoftLimit : bool;
  CCWSoftLimit : bool;
  InMotionCW : bool;
  InMotionCCW : bool;
  JoggingCW : bool;
  JoggingCCW : bool;
  IsConnected : bool;
  IsHoming : bool;
  IsHomed : bool;
  IsInitializing : bool;
  IsTracking : bool;
  IsSettled : bool;
  PositionError : bool;
  InstructionError : bool;
  Interlock : bool;
  OverTemperature : bool;
  BusVoltageFault : bool;
  CommutationError : bool;
  Overload : bool;
  EncoderFault : bool;
  OverCurrent : bool;
  BusCurrentFault : bool;
  PowerOk : bool;
  IsActive : bool;
  Error : bool;
  IsEnabled : bool
}.

(** The fields of the struct, in declaration order. *)
Definition fields (b : t) : list bool :=
  [ CWHardLimit b; CCWHardLimit b; CWSoftLimit b; CCWSoftLimit b;
    InMotionCW b; InMotionCCW b; JoggingCW b; JoggingCCW b;
    IsConnected b; IsHoming b; IsHomed b; IsInitializing b;
    IsTracking b; IsSettled b; PositionError b; InstructionError b;
    Interlock b; OverTemperature b; BusVoltageFault b; CommutationError b;
    Overload b; EncoderFault b; OverCurrent b; BusCurrentFault b;
    PowerOk b; IsActive b; Error b; IsEnabled b ].
End DCStatusBits.

Module DCStatusUpdateSI.
Record t : Type := mk {
  Channel : Z;               (* uint16 *)
  Position : float64;
  Velocity : float64;
  Current : float64;
  StatusBits : DCStatusBits.t
}.
End DCStatusUpdateSI.

(** [type Direction uint8], [type StopMode uint8] *)
Definition Direction : Type := Z.
Definition StopMode : Type := Z.

Definition Forward : Direction := 0x01.
Definition Reverse : Direction := 0x02.
Definition Abrupt : StopMode := 0x01.
Definition Soft : StopMode := 0x02.

(** [byte(1 << (channel - 1))] for [channel uint8]. *)
Definition channel_mask (channel : Z) : Z :=
  uint8 (Z.shiftl 1 (uint8 (channel - 1))).

(** [uint16(len(data))] *)
Definition len16 (data : list Z) : Z := uint16 (Z.of_nat (length data)).

(** [(statusBits & mask) != 0] *)
Definition bit_set (statusBits mask : Z) : bool :=
  negb (Z.land statusBits mask =? 0).

Definition ParseDCStatusBits (statusBits : Z) : DCStatusBits.t :=
  {| DCStatusBits.CWHardLimit      := bit_set statusBits 0x00000001;
     DCStatusBits.CCWHardLimit     := bit_set statusBits 0x00000002;
     DCStatusBits.CWSoftLimit      := bit_set statusBits 0x00000004;
     DCStatusBits.CCWSoftLimit     := bit_set statusBits 0x00000008;
     DCStatusBits.InMotionCW       := bit_set statusBits 0x00000010;
     DCStatusBits.InMotionCCW      := bit_set statusBits 0x00000020;
     DCStatusBits.JoggingCW        := bit_set statusBits 0x00000040;
     DCStatusBits.JoggingCCW       := bit_set statusBits 0x00000080;
     DCStatusBits.IsConnected      := bit_set statusBits 0x00000100;
     DCStatusBits.IsHoming         := bit_set statusBits 0x00000200;
     DCStatusBits.IsHomed          := bit_set statusBits 0x00000400;
     DCStatusBits.IsInitializing   := bit_set statusBits 0x00000800;
     DCStatusBits.IsTracking       := bit_set statusBits 0x00001000;
     DCStatusBits.IsSettled        := bit_set statusBits 0x00002000;
     DCStatusBits.PositionError    := bit_set statusBits 0x00004000;
     DCStatusBits.InstructionError := bit_set statusBits 0x00008000;
     DCStatusBits.Interlock        := bit_set statusBits 0x00010000;
     DCStatusBits.OverTemperature  := bit_set statusBits 0x00020000;
     DCStatusBits.BusVoltageFault  := bit_set statusBits 0x00040000;
     DCStatusBits.CommutationError := bit_set statusBits 0x00080000;
     DCStatusBits.Overload         := bit_set statusBits 0x01000000;
     DCStatusBits.EncoderFault     := bit_set statusBits 0x02000000;
     DCStatusBits.OverCurrent      := bit_set statusBits 0x04000000;
     DCStatusBits.BusCurrentFault  := bit_set statusBits 0x08000000;
     DCStatusBits.PowerOk          := bit_set statusBits 0x10000000;
     DCStatusBits.IsActive         := bit_set statusBits 0x20000000;
     DCStatusBits.Error            := bit_set statusBits 0x40000000;
     DCStatusBits.IsEnabled        := bit_set statusBits 0x80000000 |}.

Definition DCStatusUpdateToSI {T} (k : KDC101 T) (update : DCStatusUpdate.t)
  : DCStatusUpdateSI.t :=
  {| DCStatusUpdateSI.Channel := DCStatusUpdate.Channel update;
     DCStatusUpdateSI.Position := CountsToPosition k (DCStatusUpdate.Position update);
     DCStatusUpdateSI.Velocity := CountsToVelocity k (uint32 (DCStatusUpdate.Velocity update));
     DCStatusUpdateSI.Current := float_of_int (DCStatusUpdate.Current update);
     DCStatusUpdateSI.StatusBits := ParseDCStatusBits (DCStatusUpdate.StatusBits update) |}.

Section Commands.
Context {T : Type} `{Unicomm T}.

(** [data[lo:hi]] on the payload [data] of the reply just read: its backing
    array is the one the transport's last read returned. *)
Definition sliced (data : list Z) (lo hi : nat) : M T (list Z) :=
  fun k => must (slice data (comm_Spare (Communication k)) lo hi) k.

(** [conv(data[lo:hi])]: the slice expression, then the conversion. *)
Definition field {A} (conv : list Z -> option A) (data : list Z) (lo hi : nat)
  : M T A :=
  bytes <- sliced data lo hi ;;
  must (conv bytes).

Definition command (id : Z) (channel : Z) (param2 : Z) : HeaderMessage.t :=
  {| HeaderMessage.ID := id;
     HeaderMessage.Parameter1 := channel_mask channel;
     HeaderMessage.Parameter2 := param2;
     HeaderMessage.Destination := GenericUnit;
     HeaderMessage.Source := Host |}.

Definition data_command (id : Z) (data : list Z) : DataMessage.t :=
  {| DataMessage.ID := id;
     DataMessage.Data := data;
     DataMessage.DataLength := len16 data;
     DataMessage.Destination := GenericUnit;
     DataMessage.Source := Host |}.

Definition Identify (channel : Z) : M T unit :=
  if negb (channel =? 1) then fail ErrChannelNotSupported else
  WriteHeaderOnly (command 0x0223 channel 0x00).

Definition GetInformation : M T HwInformation.t :=
  response <- RequestData
    {| HeaderMessage.ID := 0x0005;
       HeaderMessage.Parameter1 := 0x00;
       HeaderMessage.Parameter2 := 0x00;
       HeaderMessage.Destination := GenericUnit;
       HeaderMessage.Source := Host |} ;;
  let data := DataMessage.Data response in
  if (length data <? 84)%nat then fail ErrHwInfoLength else
  serial <- field Utils.BytesToLong data 0 4 ;;
  model <- sliced data 4 12 ;;
  type <- field Utils.BytesToWord data 12 14 ;;
  firmware <- sliced data 14 18 ;;
  hardware <- field Utils.BytesToWord data 78 80 ;;
  modState <- field Utils.BytesToWord data 80 82 ;;
  channels <- field Utils.BytesToWord data 82 84 ;;
  ret (HwInformation.mk serial model type firmware hardware modState channels).

Definition Enable (channel : Z) (enable : bool) : M T unit :=
  if negb (channel =? 1) then fail ErrChannelNotSupported else
  WriteHeaderOnly (command 0x0224 channel (if enable then 0x01 else 0x02)).

Definition IsEnabled (channel : Z) : M T bool :=
  if negb (channel =? 1) then fail ErrChannelNotSupported else
  response <- RequestHeaderOnly (command 0x0211 channel 0x00) ;;
  ret (HeaderMessage.Parameter2 response =? 0x01).

Definition StartHomeMove (channel : Z) : M T unit :=
  if negb (channel =? 1) then fail ErrChannelNotSupported else
  WriteHeaderOnly (command 0x0443 channel 0x00).

Definition StartRelativeMove (channel : Z) : M T unit :=
  if negb (channel =? 1) then fail ErrChannelNotSupported else
  WriteHeaderOnly (command 0x0448 channel 0x00).

Definition MoveRelativeDistance (channel : Z) (distance : float64) : M T unit :=
  if negb (channel =? 1) then fail ErrChannelNotSupported else
  k <- self ;;
  let counts := PositionToCounts k distance in
  let data := [channel_mask channel; 0x00] in
  let data := data ++ Utils.LongToBytes counts in
  WriteData (data_command 0x0448 data).

Definition StartAbsoluteMove (channel : Z) : M T unit :=
  if negb (channel =? 1) then fail ErrChannelNotSupported else
  WriteHeaderOnly (command 0x0453 channel 0x00).

Definition MoveAbsolutePosition (channel : Z) (position : float64) : M T unit :=
  if negb (channel =? 1) then fail ErrChannelNotSupported else
  k <- self ;;
  let counts := PositionToCounts k position in
  let data := [channel_mask channel; 0x00] in
  let data := data ++ Utils.LongToBytes counts in
  WriteData (data_command 0x0453 data).

Definition StartJogMove (channel : Z) (direction : Direction) : M T unit :=
  if negb (channel =? 1) then fail ErrChannelNotSupported else
  WriteHeaderOnly (command 0x046A channel direction).

Definition MoveContinuous (channel : Z) (direction : Direction) : M T unit :=
  if negb (channel =? 1) then fail ErrChannelNotSupported else
  WriteHeaderOnly (command 0x0457 channel direction).

Definition Stop (channel : Z) (mode : StopMode) : M T unit :=
  if negb (channel =? 1) then fail ErrChannelNotSupported else
  WriteHeaderOnly (command 0x0465 channel mode).

Definition SetTrapezoidalVelocity (channel : Z) (profile : VelocityProfile.t)
  : M T unit :=
  if negb (channel =? 1) then fail ErrChannelNotSupported else
  k <- self ;;
  let minVel := VelocityToCounts k (VelocityProfile.MinVelocity profile) in
  let accel := AccelerationToCounts k (VelocityProfile.Acceleration profile) in
  let maxVel := VelocityToCounts k (VelocityProfile.MaxVelocity profile) in
  let data := [channel_mask channel; 0x00] in
  let data := data ++ Utils.DwordToBytes minVel in
  let data := data ++ Utils.DwordToBytes accel in
  let data := data ++ Utils.DwordToBytes maxVel in
  WriteData (data_command 0x0413 data).

Definition GetTrapezoidalVelocity (channel : Z) : M T VelocityProfile.t :=
  if negb (channel =? 1) then fail ErrChannelNotSupported else
  response <- RequestData (command 0x0414 channel 0x00) ;;
  let data := DataMessage.Data response in
  if (length data <? 14)%nat then fail ErrInvalidResponseLength else
  k <- self ;;
  minVel <- field Utils.BytesToDword data 2 6 ;;
  accel <- field Utils.BytesToLong data 6 10 ;;
  maxVel <- field Utils.BytesToDword data 10 14 ;;
  ret {| VelocityProfile.MinVelocity := CountsToVelocity k minVel;
         VelocityProfile.Acceleration := CountsToAcceleration k accel;
         VelocityProfile.MaxVelocity := CountsToVelocity k maxVel |}.

Definition SetJogParameters (channel : Z) (params : JogParameters.t)
  : M T unit :=
  if negb (channel =? 1) then fail ErrChannelNotSupported else
  k <- self ;;
  let stepSize := PositionToCounts k (JogParameters.StepSize params) in
  let minVel := VelocityToCounts k (JogParameters.MinVelocity params) in
  let accel := AccelerationToCounts k (JogParameters.Acceleration params) in
  let maxVel := VelocityToCounts k (JogParameters.MaxVelocity params) in
  let data := [channel_mask channel; 0x00] in
  let data := data ++ Utils.WordToBytes (JogParameters.Mode params) in
  let data := data ++ Utils.LongToBytes stepSize in
  let data := data ++ Utils.DwordToBytes minVel in
  let data := data ++ Utils.DwordToBytes accel in
  let data := data ++ Utils.DwordToBytes maxVel in
  let data := data ++ Utils.WordToBytes (JogParameters.StopMode params) in
  WriteData (data_command 0x0416 data).

Definition GetJogParameters (channel : Z) : M T JogParameters.t :=
  if negb (channel =? 1) then fail ErrChannelNotSupported else
  response <- RequestData (command 0x0417 channel 0x00) ;;
  let data := DataMessage.Data response in
  if (length data <? 22)%nat then fail ErrInvalidResponseLength else
  k <- self ;;
  mode <- field Utils.BytesToWord data 2 4 ;;
  stepSize <- field Utils.BytesToLong data 4 8 ;;
  minVel <- field Utils.BytesToDword data 8 12 ;;
  accel <- field Utils.BytesToLong data 12 16 ;;
  maxVel <- field Utils.BytesToDword data 16 20 ;;
  stopMode <- field Utils.BytesToWord data 20 22 ;;
  ret {| JogParameters.Mode := mode;
         JogParameters.StepSize := CountsToPosition k stepSize;
         JogParameters.MinVelocity := CountsToVelocity k minVel;
         JogParameters.Acceleration := CountsToAcceleration k accel;
         JogParameters.MaxVelocity := CountsToVelocity k maxVel;
         JogParameters.StopMode := stopMode |}.

Definition SetRelativeMoveDistance (channel : Z) (distance : float64)
  : M T unit :=
  if negb (channel =? 1) then fail ErrChannelNotSupported else
  k <- self ;;
  let counts := PositionToCounts k distance in
  let data := [channel_mask channel; 0x00] in
  let data := data ++ Utils.LongToBytes counts in
  WriteData (data_command 0x0445 data).

Definition GetRelativeMoveDistance (channel : Z) : M T float64 :=
  if negb (channel =? 1) then fail ErrChannelNotSupported else
  response <- RequestData (command 0x0446 channel 0x00) ;;
  let data := DataMessage.Data response in
  if (length data <? 6)%nat then fail ErrInvalidResponseLength else
  k <- self ;;
  counts <- field Utils.BytesToLong data 2 6 ;;
  ret (CountsToPosition k (int32 counts)).

Definition SetAbsoluteMoveDistance (channel : Z) (position : float64)
  : M T unit :=
  if negb (channel =? 1) then fail ErrChannelNotSupported else
  k <- self ;;
  let counts := PositionToCounts k position in
  let data := [channel_mask channel; 0x00] in
  let data := data ++ Utils.LongToBytes counts in
  WriteData (data_command 0x0450 data).

Definition GetAbsoluteMoveDistance (channel : Z) : M T float64 :=
  if negb (channel =? 1) then fail ErrChannelNotSupported else
  response <- RequestData (command 0x0451 channel 0x00) ;;
  let data := DataMessage.Data response in
  if (length data <? 6)%nat then fail ErrInvalidResponseLength else
  k <- self ;;
  counts <- field Utils.BytesToLong data 2 6 ;;
  ret (CountsToPosition k (int32 counts)).

Definition GetDCStatusUpdate (channel : Z) : M T DCStatusUpdate.t :=
  if negb (channel =? 1) then fail ErrChannelNotSupported else
  let msg := command 0x0490 channel 0x00 in
  response <- RequestData msg ;;
  let data := DataMessage.Data response in
  channel' <- field Utils.BytesToWord data 0 2 ;;
  position <- field Utils.BytesToLong data 2 6 ;;
  velocity <- field Utils.BytesToWord data 6 8 ;;
  current <- field Utils.BytesToShort data 8 10 ;;
  statusBits <- field Utils.BytesToDword data 10 14 ;;
  ret (DCStatusUpdate.mk channel' position velocity current statusBits).

End Commands.

(** ** thorlabskdc101.go: the constructor *)

(** [type StageType string], [type MotorType string] *)
Definition Brushed : string := "Brushed".
Definition Brushless : string := "Brushless".
Definition MTS25Z8 : string := "MTS25-Z8".
Definition MTS50Z8 : string := "MTS50-Z8".
Definition Z8xx : string := "Z8xx".
Definition Z6xx : string := "Z6xx".
Definition PRM1Z8 : string := "PRM1-Z8".
Definition PRMTZ8 : string := "PRMTZ8".
Definition CR1Z7 : string := "CR1-Z7".
Definition KVS30 : string := "KVS30".

(** [New(stage, motor, options)]: [unicomm.New(options)] is the transport
    handle [comm]; the names are stored as given and nothing is looked up. *)
Definition New {T} (stage motor : string) (comm : T) : KDC101 T :=
  {| Communication := comm;
     StageType := stage;
     MotorType := motor |}.

(** ** Two transports

    [Script] is a device that answers from a prepared byte stream: a read of
    [n] bytes takes them when they are available, in a buffer of exactly
    that size, and times out otherwise.
    [Recorder] wraps any transport and records every write and read made
    through it. *)

Record Script : Type := mkScript { incoming : list Z }.

#[export] Instance Script_Unicomm : Unicomm Script := {
  comm_Connect s := (s, None);
  comm_Disconnect s := (s, None);
  comm_IsConnected _ := true;
  comm_Write _ s := (s, None);
  comm_Read n s :=
    if (n <=? length (incoming s))%nat
    then (mkScript (skipn n (incoming s)), Ok (firstn n (incoming s)))
    else (s, Err (ErrTransport "read timeout"));
  comm_Spare _ := []
}.

Inductive event : Type :=
| Written (bytes : list Z)
| ReadRequest (n : nat).

Record Recorder (T : Type) : Type := mkRecorder {
  inner : T;
  trace : list event
}.

Arguments mkRecorder {T} _ _.
Arguments inner {T} _.
Arguments trace {T} _.

#[export] Instance Recorder_Unicomm (T : Type) `{Unicomm T} : Unicomm (Recorder T) := {
  comm_Connect r :=
    let (t, e) := comm_Connect (inner r) in (mkRecorder t (trace r), e);
  comm_Disconnect r :=
    let (t, e) := comm_Disconnect (inner r) in (mkRecorder t (trace r), e);
  comm_IsConnected r := comm_IsConnected (inner r);
  comm_Write bytes r :=
    let (t, e) := comm_Write bytes (inner r) in
    (mkRecorder t (trace r ++ [Written bytes]), e);
  comm_Read n r :=
    let (t, res) := comm_Read n (inner r) in
    (mkRecorder t (trace r ++ [ReadRequest n]), res);
  comm_Spare r := comm_Spare (inner r)
}.

(** The frames written, in order. *)
Fixpoint frames (tr : list event) : list (list Z) :=
  match tr with
  | [] => []
  | Written bytes :: rest => bytes :: frames rest
  | ReadRequest _ :: rest => frames rest
  end.

(** The sizes of the reads requested, in order. *)
Fixpoint reads (tr : list event) : list nat :=
  match tr with
  | [] => []
  | Written _ :: rest => reads rest
  | ReadRequest n :: rest => n :: reads rest
  end.

(** A controller on a recording transport over a scripted device. *)
Definition bench (stage motor : string) (reply : list Z) : KDC101 (Recorder Script) :=
  New stage motor (mkRecorder (mkScript reply) []).

(** ** Scenario data and auxiliary definitions *)

(** The get-DC-status reply of the scenario: a data-message header
    (id [0x0491], 14 payload bytes) and the five fields, little-endian. *)
Definition dc_status_reply : list Z :=
  [0x91; 0x04; 0x0E; 0x00; 0x81; 0x50] ++
  [0x01; 0x00] ++ [0x2E; 0x4F; 0x05; 0x00] ++ [0x32; 0x00] ++
  [0xF6; 0xFF] ++ [0x01; 0x04; 0x00; 0x80].

Definition dc_status_raw : DCStatusUpdate.t :=
  {| DCStatusUpdate.Channel := 0x0001;
     DCStatusUpdate.Position := 0x00054F2E;
     DCStatusUpdate.Velocity := 0x0032;
     DCStatusUpdate.Current := int16 0xFFF6;
     DCStatusUpdate.StatusBits := 0x80000401 |}.

(** What [ReadData] makes of a frame written by [WriteData]: the message
    with the flag bit [0x80] still in its destination. *)
Definition flagged (msg : DataMessage.t) : DataMessage.t :=
  {| DataMessage.ID := DataMessage.ID msg;
     DataMessage.DataLength := DataMessage.DataLength msg;
     DataMessage.Destination := Z.lor (DataMessage.Destination msg) 0x80;
     DataMessage.Source := DataMessage.Source msg;
     DataMessage.Data := DataMessage.Data msg |}.

(** The six header bytes [WriteData] builds. *)
Definition data_header (msg : DataMessage.t) : list Z :=
  [ uint8 (Z.land (DataMessage.ID msg) 0x00FF);
    uint8 (Z.shiftr (DataMessage.ID msg) 8);
    uint8 (Z.land (DataMessage.DataLength msg) 0x00FF);
    uint8 (Z.shiftr (DataMessage.DataLength msg) 8);
    Z.lor (DataMessage.Destination msg) 0x80;
    DataMessage.Source msg ].

(** A one-byte data message for the generic unit. *)
Definition sample_message : DataMessage.t :=
  {| DataMessage.ID := 0x0453;
     DataMessage.DataLength := 1;
     DataMessage.Destination := GenericUnit;
     DataMessage.Source := Host;
     DataMessage.Data := [0x07] |}.

(** The header-only request [GetDCStatusUpdate 1] writes. *)
Definition dc_status_request : list Z := [0x90; 0x04; 0x01; 0x00; 0x50; 0x01].

(** The divisor of [CountsToAcceleration]. *)
Definition acceleration_scale {T} (k : KDC101 T) : float64 :=
  let encCount := map_index StageScalingFactor (StageType k) in
  let T := map_index MotorTFactor (MotorType k) in
  (T * T * 65536 * encCount)%float.

(** A divisor that is zero or positive, with a moderate exponent. *)
Definition moderate_positive (f : spec_float) : bool :=
  match f with
  | S754_zero false => true
  | S754_finite false m e =>
      (-200 <=? e) && (e <=? 200) && (Zdigits2 (Zpos m) + e <=? 200)
  | _ => false
  end.

(** A get-velocity reply: a data-message header (id [0x0415], 14 payload
    bytes) and the payload. *)
Definition velocity_reply (payload : list Z) : list Z :=
  [0x15; 0x04; 0x0E; 0x00; 0x81; 0x50] ++ payload.

(** What [SetTrapezoidalVelocity 1 profile] puts in its payload. *)
Definition velocity_payload {T} (k : KDC101 T) (profile : VelocityProfile.t) : list Z :=
  [0x01; 0x00] ++
  Utils.DwordToBytes (VelocityToCounts k (VelocityProfile.MinVelocity profile)) ++
  Utils.DwordToBytes (AccelerationToCounts k (VelocityProfile.Acceleration profile)) ++
  Utils.DwordToBytes (VelocityToCounts k (VelocityProfile.MaxVelocity profile)).

(** The six bytes [WriteHeaderOnly] builds. *)
Definition header_bytes (msg : HeaderMessage.t) : list Z :=
  [ uint8 (Z.land (HeaderMessage.ID msg) 0x00FF);
    uint8 (Z.shiftr (HeaderMessage.ID msg) 8);
    HeaderMessage.Parameter1 msg;
    HeaderMessage.Parameter2 msg;
    HeaderMessage.Destination msg;
    HeaderMessage.Source msg ].

(** On a recording transport: the state and result of a call that makes one
    write of [frame] and no other transport call. *)
Definition after_write {T} `{Unicomm T} (k : KDC101 (Recorder T)) (frame : list Z)
  : KDC101 (Recorder T) * outcome unit :=
  let (device, e) := comm_Write frame (inner (Communication k)) in
  (with_Communication k
     (mkRecorder device (trace (Communication k) ++ [Written frame])),
   match e with None => Ok tt | Some err => Err err end).

(** The length a six-byte data-message header declares. *)
Definition declared_length (header : list Z) : Z :=
  Z.lor (Z.shiftl (nth 3 header 0) 8) (nth 2 header 0).

(** The data message [ReadData] builds from a header and a payload. *)
Definition data_message_of (header payload : list Z) : DataMessage.t :=
  {| DataMessage.ID := Z.lor (Z.shiftl (nth 1 header 0) 8) (nth 0 header 0);
     DataMessage.DataLength := declared_length header;
     DataMessage.Destination := nth 4 header 0;
     DataMessage.Source := nth 5 header 0;
     DataMessage.Data := payload |}.

(** The transport in state [c] accepts the write of [request], then answers
    the six-byte read with [header] and the read of the declared length with
    [payload], ending in state [c']. *)
Definition answers {T} `{Unicomm T} (c : T) (request header payload : list Z) (c' : T)
  : Prop :=
  exists t1 t2,
    comm_Write request c = (t1, None) /\
    comm_Read 6 t1 = (t2, Ok header) /\
    length header = 6%nat /\
    1 <= declared_length header /\
    comm_Read (Z.to_nat (declared_length header)) t2 = (c', Ok payload).

(** A transport that returns the bytes it has, without an error, when fewer
    than the requested number are available (a short read). *)
Record Stream : Type := mkStream { available : list Z }.

#[export] Instance Stream_Unicomm : Unicomm Stream := {
  comm_Connect s := (s, None);
  comm_Disconnect s := (s, None);
  comm_IsConnected _ := true;
  comm_Write _ s := (s, None);
  comm_Read n s := (mkStream (skipn n (available s)), Ok (firstn n (available s)));
  comm_Spare _ := []
}.

(** What [SetJogParameters 1 params] puts in its payload. *)
Definition jog_payload {T} (k : KDC101 T) (params : JogParameters.t) : list Z :=
  [0x01; 0x00] ++
  Utils.WordToBytes (JogParameters.Mode params) ++
  Utils.LongToBytes (PositionToCounts k (JogParameters.StepSize params)) ++
  Utils.DwordToBytes (VelocityToCounts k (JogParameters.MinVelocity params)) ++
  Utils.DwordToBytes (AccelerationToCounts k (JogParameters.Acceleration params)) ++
  Utils.DwordToBytes (VelocityToCounts k (JogParameters.MaxVelocity params)) ++
  Utils.WordToBytes (JogParameters.StopMode params).

(** A float that is an infinity or NaN. *)
Definition not_finite (f : float64) : bool :=
  match Prim2SF f with
  | S754_infinity _ | S754_nan => true
  | _ => false
  end.

(** The status bits that carry a flag: all but the reserved bits 20 to 23. *)
Definition flag_bits : Z := 0xFF0FFFFF.

(** A device read through a buffer larger than the request: a read of [n]
    bytes returns a slice of length [n] whose backing array goes on with the
    bytes [room] (what an earlier use left in the buffer). *)
Record Roomy : Type := mkRoomy { queued : list Z; room : list Z }.

#[export] Instance Roomy_Unicomm : Unicomm Roomy := {
  comm_Connect s := (s, None);
  comm_Disconnect s := (s, None);
  comm_IsConnected _ := true;
  comm_Write _ s := (s, None);
  comm_Read n s :=
    if (n <=? length (queued s))%nat
    then (mkRoomy (skipn n (queued s)) (room s), Ok (firstn n (queued s)))
    else (s, Err (ErrTransport "read timeout"));
  comm_Spare s := room s
}.

(** The status [GetDCStatusUpdate] decodes from the first 14 bytes of a
    backing array. *)
Definition dc_status_of (b : list Z) : DCStatusUpdate.t :=
  {| DCStatusUpdate.Channel := Z.lor (nth 0 b 0) (Z.shiftl (nth 1 b 0) 8);
     DCStatusUpdate.Position :=
       int32 (Z.lor (Z.lor (Z.lor (nth 2 b 0) (Z.shiftl (nth 3 b 0) 8))
                           (Z.shiftl (nth 4 b 0) 16))
                    (Z.shiftl (nth 5 b 0) 24));
     DCStatusUpdate.Velocity := Z.lor (nth 6 b 0) (Z.shiftl (nth 7 b 0) 8);
     DCStatusUpdate.Current := int16 (Z.lor (nth 8 b 0) (Z.shiftl (nth 9 b 0) 8));
     DCStatusUpdate.StatusBits :=
       Z.lor (Z.lor (Z.lor (nth 10 b 0) (Z.shiftl (nth 11 b 0) 8))
                    (Z.shiftl (nth 12 b 0) 16))
             (Z.shiftl (nth 13 b 0) 24) |}.

(** * Properties *)

(** ** The single-channel guard *)

Section ChannelGuard.
Context {T : Type} `{Unicomm T}.
Variable k : KDC101 T.
Variable channel : Z.
Hypothesis Hchannel : channel <> 1.

Lemma guard_false : negb (channel =? 1) = true.
Proof using Hchannel.
  destruct (Z.eqb_spec channel 1); [contradiction | reflexivity].
Qed.

Ltac guarded := rewrite guard_false; reflexivity.

(** C2.  For a channel other than 1 every operation taking a channel
    returns [ErrChannelNotSupported] and leaves the controller, hence the
    transport, exactly as it was: no write and no read is made.  The
    transport is arbitrary, so this holds in particular on a [Recorder],
    whose trace stays unchanged. *)
Theorem channel_not_supported :
  Identify channel k = (k, Err ErrChannelNotSupported) /\
  (forall enable, Enable channel enable k = (k, Err ErrChannelNotSupported)) /\
  IsEnabled channel k = (k, Err ErrChannelNotSupported) /\
  StartHomeMove channel k = (k, Err ErrChannelNotSupported) /\
  StartRelativeMove channel k = (k, Err ErrChannelNotSupported) /\
  (forall distance,
      MoveRelativeDistance channel distance k = (k, Err ErrChannelNotSupported)) /\
  StartAbsoluteMove channel k = (k, Err ErrChannelNotSupported) /\
  (forall position,
      MoveAbsolutePosition channel position k = (k, Err ErrChannelNotSupported)) /\
  (forall direction,
      StartJogMove channel direction k = (k, Err ErrChannelNotSupported)) /\
  (forall direction,
      MoveContinuous channel direction k = (k, Err ErrChannelNotSupported)) /\
  (forall mode, Stop channel mode k = (k, Err ErrChannelNotSupported)) /\
  (forall profile,
      SetTrapezoidalVelocity channel profile k = (k, Err ErrChannelNotSupported)) /\
  GetTrapezoidalVelocity channel k = (k, Err ErrChannelNotSupported) /\
  (forall params,
      SetJogParameters channel params k = (k, Err ErrChannelNotSupported)) /\
  GetJogParameters channel k = (k, Err ErrChannelNotSupported) /\
  (forall distance,
      SetRelativeMoveDistance channel distance k = (k, Err ErrChannelNotSupported)) /\
  GetRelativeMoveDistance channel k = (k, Err ErrChannelNotSupported) /\
  (forall position,
      SetAbsoluteMoveDistance channel position k = (k, Err ErrChannelNotSupported)) /\
  GetAbsoluteMoveDistance channel k = (k, Err ErrChannelNotSupported) /\
  GetDCStatusUpdate channel k = (k, Err ErrChannelNotSupported).
Proof using Hchannel.
  repeat split; intros.
  - unfold Identify; guarded.
  - unfold Enable; guarded.
  - unfold IsEnabled; guarded.
  - unfold StartHomeMove; guarded.
  - unfold StartRelativeMove; guarded.
  - unfold MoveRelativeDistance; guarded.
  - unfold StartAbsoluteMove; guarded.
  - unfold MoveAbsolutePosition; guarded.
  - unfold StartJogMove; guarded.
  - unfold MoveContinuous; guarded.
  - unfold Stop; guarded.
  - unfold SetTrapezoidalVelocity; guarded.
  - unfold GetTrapezoidalVelocity; guarded.
  - unfold SetJogParameters; guarded.
  - unfold GetJogParameters; guarded.
  - unfold SetRelativeMoveDistance; guarded.
  - unfold GetRelativeMoveDistance; guarded.
  - unfold SetAbsoluteMoveDistance; guarded.
  - unfold GetAbsoluteMoveDistance; guarded.
  - unfold GetDCStatusUpdate; guarded.
Qed.
End ChannelGuard.

(** Channel 2 on the bench: the call is refused and the trace stays empty. *)
Lemma channel_not_supported_witness :
  2 <> 1 /\
  let k := bench MTS25Z8 Brushed [] in
  Enable 2 true k = (k, Err ErrChannelNotSupported) /\
  trace (Communication (fst (Enable 2 true k))) = [].
Proof.
  split; [lia |].
  intro k.
  pose proof (channel_not_supported k 2 ltac:(lia)) as G.
  destruct G as [_ [G _]].
  split; [apply G | rewrite G; reflexivity].
Defined.

(** ** The status decoder *)

Lemma bit_set_reserved (statusBits x reserved mask : Z) :
  Z.land reserved mask = 0 ->
  bit_set (Z.lxor statusBits (Z.land x reserved)) mask = bit_set statusBits mask.
Proof.
  intros Hmask. unfold bit_set. do 2 f_equal.
  apply Z.bits_inj'. intros n _.
  assert (Hn : Z.testbit (Z.land reserved mask) n = false)
    by (rewrite Hmask; apply Z.bits_0).
  rewrite Z.land_spec in Hn.
  rewrite !Z.land_spec, Z.lxor_spec, Z.land_spec.
  revert Hn.
  destruct (Z.testbit statusBits n), (Z.testbit x n),
    (Z.testbit reserved n), (Z.testbit mask n); cbv [andb xorb]; congruence.
Qed.

(** C7, as the claim counts the flags: the decoder does not yield 27 flags
    on [0xFFFFFFFF]; the struct has 28 fields. *)
Lemma status_flags_are_not_27 :
  DCStatusBits.fields (ParseDCStatusBits 0xFFFFFFFF) <> repeat true 27.
Proof.
  vm_compute. discriminate.
Qed.

(** C7, amended.  [ParseDCStatusBits] is a total function of the status
    word; on [0xFFFFFFFF] each of its 28 flags is true, on [0] each is false,
    and flipping any of the reserved bits 20 to 23 of any status word changes
    no flag. *)
Theorem status_decoder_total :
  DCStatusBits.fields (ParseDCStatusBits 0xFFFFFFFF) = repeat true 28 /\
  DCStatusBits.fields (ParseDCStatusBits 0x00000000) = repeat false 28 /\
  forall statusBits x,
    ParseDCStatusBits (Z.lxor statusBits (Z.land x 0x00F00000)) =
    ParseDCStatusBits statusBits.
Proof.
  split; [reflexivity | split; [reflexivity |]].
  intros statusBits x. unfold ParseDCStatusBits.
  rewrite !bit_set_reserved by reflexivity.
  reflexivity.
Qed.

(** C4, as stated: with status bits [0x80000401] the flag [IsConnected]
    (mask [0x100]) is not set, and [CWHardLimit] (mask [0x1]) is. *)
Lemma dc_status_not_connected :
  let k := New MTS25Z8 Brushed (mkScript dc_status_reply) in
  snd (GetDCStatusUpdate 1 k) = Ok dc_status_raw /\
  let flags := DCStatusUpdateSI.StatusBits (DCStatusUpdateToSI k dc_status_raw) in
  DCStatusBits.IsConnected flags = false /\
  DCStatusBits.CWHardLimit flags = true.
Proof.
  vm_compute. repeat split.
Qed.

(** C4, amended.  The reply with channel [0x0001], position [0x00054F2E],
    velocity [0x0032], current [0xFFF6] and status bits [0x80000401] decodes
    to these raw fields, and its flags are [CWHardLimit], [IsHomed] and
    [IsEnabled] true and every other flag, [IsConnected] included, false. *)
Theorem dc_status_scenario :
  let k := New MTS25Z8 Brushed (mkScript dc_status_reply) in
  GetDCStatusUpdate 1 k =
    (New MTS25Z8 Brushed (mkScript []), Ok dc_status_raw) /\
  DCStatusUpdateSI.StatusBits (DCStatusUpdateToSI k dc_status_raw) =
    {| DCStatusBits.CWHardLimit := true;
       DCStatusBits.CCWHardLimit := false;
       DCStatusBits.CWSoftLimit := false;
       DCStatusBits.CCWSoftLimit := false;
       DCStatusBits.InMotionCW := false;
       DCStatusBits.InMotionCCW := false;
       DCStatusBits.JoggingCW := false;
       DCStatusBits.JoggingCCW := false;
       DCStatusBits.IsConnected := false;
       DCStatusBits.IsHoming := false;
       DCStatusBits.IsHomed := true;
       DCStatusBits.IsInitializing := false;
       DCStatusBits.IsTracking := false;
       DCStatusBits.IsSettled := false;
       DCStatusBits.PositionError := false;
       DCStatusBits.InstructionError := false;
       DCStatusBits.Interlock := false;
       DCStatusBits.OverTemperature := false;
       DCStatusBits.BusVoltageFault := false;
       DCStatusBits.CommutationError := false;
       DCStatusBits.Overload := false;
       DCStatusBits.EncoderFault := false;
       DCStatusBits.OverCurrent := false;
       DCStatusBits.BusCurrentFault := false;
       DCStatusBits.PowerOk := false;
       DCStatusBits.IsActive := false;
       DCStatusBits.Error := false;
       DCStatusBits.IsEnabled := true |}.
Proof.
  split; vm_compute; reflexivity.
Qed.

(** ** Calibration and unit conversion *)

(** C3, as stated: the count for 10.0 mm on MTS25-Z8 is not 345550. *)
Lemma position_10mm_is_not_rounded :
  PositionToCounts (New MTS25Z8 Brushed (mkScript [])) 10%float <> 345550.
Proof.
  vm_compute. discriminate.
Qed.

(** C3, amended.  On MTS25-Z8 with a Brushed motor, [PositionToCounts 10.0]
    is the product 10.0 x 34554.96 = 345549.6 with its fraction discarded,
    345549, whatever the transport. *)
Theorem position_10mm_is_truncated :
  forall (T : Type) (comm : T),
    PositionToCounts (New MTS25Z8 Brushed comm) 10%float = 345549 /\
    345549 = (10 * 3455496) / 100.
Proof.
  intros T comm. split; vm_compute; reflexivity.
Qed.

(** C5, as stated: a pair outside both tables still yields a controller;
    its conversions then use the factor 0. *)
Lemma New_accepts_unsupported_pair :
  let k := New "MTS99" "Stepper" (mkScript []) in
  map_get StageScalingFactor "MTS99" = None /\
  map_get MotorTFactor "Stepper" = None /\
  k = mkKDC101 (mkScript []) "MTS99" "Stepper" /\
  PositionToCounts k 10%float = 0.
Proof.
  vm_compute. repeat split.
Qed.

(** C5, amended.  [New] never fails: for every pair of names it returns a
    controller holding them; the tables have 8 stage types and 2 motor
    types, each supported name indexes its datasheet constant, and a name
    absent from a table indexes 0. *)
Theorem New_total_and_tables :
  (forall (T : Type) (stage motor : string) (comm : T),
      New stage motor comm = mkKDC101 comm stage motor) /\
  length StageScalingFactor = 8%nat /\
  length MotorTFactor = 2%nat /\
  map_index StageScalingFactor MTS25Z8 = 34554.96%float /\
  map_index StageScalingFactor MTS50Z8 = 34554.96%float /\
  map_index StageScalingFactor Z8xx = 34554.96%float /\
  map_index StageScalingFactor Z6xx = 24600%float /\
  map_index StageScalingFactor PRM1Z8 = 1919.6418578623391%float /\
  map_index StageScalingFactor PRMTZ8 = 1919.6418578623391%float /\
  map_index StageScalingFactor CR1Z7 = 12288%float /\
  map_index StageScalingFactor KVS30 = 20000%float /\
  map_index MotorTFactor Brushed = (2048 / 6000000)%float /\
  map_index MotorTFactor Brushless = (2048 / 6000000)%float /\
  (forall table name, map_get table name = None -> map_index table name = 0%float).
Proof.
  repeat split; try reflexivity.
  intros table name Hmiss. unfold map_index. rewrite Hmiss. reflexivity.
Qed.

(** ** Message framing *)

Lemma lor_shiftl_low (hi lo n : Z) :
  0 <= n -> 0 <= lo < 2 ^ n -> Z.lor (Z.shiftl hi n) lo = hi * 2 ^ n + lo.
Proof.
  intros Hn Hlo.
  rewrite <- Z.shiftl_mul_pow2 by assumption.
  rewrite <- Z.lxor_lor, <- Z.add_nocarry_lxor; trivial;
    apply Z.bits_inj'; intros i Hi; rewrite Z.land_spec, Z.bits_0;
    destruct (Z.ltb_spec i n) as [Hlt | Hge].
  all: try (rewrite Z.shiftl_spec_low by assumption; reflexivity).
  all: rewrite <- (Z.mod_small lo (2 ^ n)) by assumption;
    rewrite Z.mod_pow2_bits_high by lia; apply andb_false_r.
Qed.

Lemma uint16_bytes_join (v : Z) :
  is_uint16 v ->
  Z.lor (Z.shiftl (uint8 (Z.shiftr v 8)) 8) (uint8 (Z.land v 0x00FF)) = v.
Proof.
  unfold is_uint16, uint8. intros Hv.
  change 0x00FF with (Z.ones 8).
  rewrite Z.land_ones, Z.shiftr_div_pow2 by lia.
  rewrite Z.mod_mod by lia.
  rewrite lor_shiftl_low by (try apply Z.mod_pos_bound; lia).
  rewrite (Z.mod_small (v / 2 ^ 8)).
  - symmetry. rewrite Z.mul_comm. apply Z.div_mod. lia.
  - split; [apply Z.div_pos; lia | apply Z.div_lt_upper_bound; lia].
Qed.

Lemma Script_read_app (a b : list Z) :
  comm_Read (length a) (mkScript (a ++ b)) = (mkScript b, Ok a).
Proof.
  cbn. rewrite length_app.
  replace (length a <=? length a + length b)%nat with true
    by (symmetry; apply Nat.leb_le; lia).
  rewrite skipn_app, firstn_app, Nat.sub_diag, skipn_all, firstn_all.
  cbn. rewrite app_nil_r. reflexivity.
Qed.

Lemma reads_app (tr tr' : list event) : reads (tr ++ tr') = reads tr ++ reads tr'.
Proof.
  induction tr as [| [bytes | n] tr IH]; cbn; rewrite ?IH; reflexivity.
Qed.

Lemma WriteData_frame (stage motor : string) (msg : DataMessage.t) :
  WriteData msg (bench stage motor []) =
  (New stage motor
       (mkRecorder (mkScript []) [Written (data_header msg ++ DataMessage.Data msg)]),
   Ok tt).
Proof. reflexivity. Qed.

Lemma ReadData_frame (stage motor : string) (msg : DataMessage.t) :
  DataMessage.wf msg ->
  1 <= DataMessage.DataLength msg ->
  Z.of_nat (length (DataMessage.Data msg)) = DataMessage.DataLength msg ->
  ReadData (New stage motor (mkScript (data_header msg ++ DataMessage.Data msg))) =
  (New stage motor (mkScript []), Ok (flagged msg)).
Proof.
  intros (Hid & Hlen & _ & _ & _) Hpos Hdata.
  pose proof (Script_read_app (data_header msg) (DataMessage.Data msg)) as Hhead.
  change (length (data_header msg)) with 6%nat in Hhead.
  unfold ReadData, bind, Communication_Read, New.
  cbn [Communication]. rewrite Hhead.
  cbn [with_Communication StageType MotorType Communication must index
       nth_error data_header ret DataMessage.DataLength].
  rewrite !uint16_bytes_join by assumption.
  destruct (Z.ltb_spec (DataMessage.DataLength msg) 1) as [Hlt | _]; [lia |].
  rewrite <- Hdata, Nat2Z.id.
  pose proof (Script_read_app (DataMessage.Data msg) []) as Hbody.
  rewrite app_nil_r in Hbody.
  cbn [Communication with_Communication]. rewrite Hbody.
  cbn. unfold DataMessage.with_Data, flagged. cbn.
  rewrite Hdata. reflexivity.
Qed.

(** C1, as stated: decoding the frame written for [sample_message] does not
    give the message back; the destination comes back as [0xD0]. *)
Lemma round_trip_keeps_flag_bit :
  let wire := concat (frames (trace (Communication
                (fst (WriteData sample_message (bench MTS25Z8 Brushed [])))))) in
  wire = [0x53; 0x04; 0x01; 0x00; 0xD0; 0x01; 0x07] /\
  snd (ReadData (New MTS25Z8 Brushed (mkScript wire))) <> Ok sample_message /\
  option_map DataMessage.Destination
    (match snd (ReadData (New MTS25Z8 Brushed (mkScript wire))) with
     | Ok msg => Some msg
     | _ => None
     end) = Some 0xD0.
Proof.
  vm_compute. repeat split. discriminate.
Qed.

(** C1, amended.  [WriteData] writes one frame: a six-byte header whose
    destination byte has bit [0x80] set, then the payload verbatim.  For a
    message whose payload has exactly [DataLength >= 1] bytes and whose
    destination is below [0x80], [ReadData] on these bytes recovers the
    id, the length, the source and the payload, and the destination with the
    bit [0x80] still set. *)
Theorem data_message_round_trip :
  forall (stage motor : string) (msg : DataMessage.t),
    DataMessage.wf msg ->
    1 <= DataMessage.DataLength msg ->
    0 <= DataMessage.Destination msg < 0x80 ->
    Z.of_nat (length (DataMessage.Data msg)) = DataMessage.DataLength msg ->
    let wire := data_header msg ++ DataMessage.Data msg in
    frames (trace (Communication (fst (WriteData msg (bench stage motor []))))) = [wire] /\
    nth 4 wire 0 = DataMessage.Destination msg + 0x80 /\
    skipn 6 wire = DataMessage.Data msg /\
    ReadData (New stage motor (mkScript wire)) =
      (New stage motor (mkScript []), Ok (flagged msg)) /\
    DataMessage.Destination (flagged msg) = DataMessage.Destination msg + 0x80.
Proof.
  intros stage motor msg Hwf Hpos Hdest Hdata wire.
  assert (Hflag : Z.lor (DataMessage.Destination msg) 0x80 =
                  DataMessage.Destination msg + 0x80).
  { rewrite Z.lor_comm. change 0x80 with (Z.shiftl 1 7) at 1.
    rewrite lor_shiftl_low by lia. lia. }
  rewrite WriteData_frame.
  repeat split.
  - cbn. exact Hflag.
  - apply ReadData_frame; assumption.
  - cbn. exact Hflag.
Qed.

Lemma data_message_round_trip_witness :
  ReadData (New MTS25Z8 Brushed
              (mkScript (data_header sample_message ++ DataMessage.Data sample_message))) =
  (New MTS25Z8 Brushed (mkScript []), Ok (flagged sample_message)).
Proof.
  assert (Hwf : DataMessage.wf sample_message).
  { unfold DataMessage.wf, is_uint16, is_byte, sample_message, GenericUnit, Host. cbn.
    repeat match goal with
           | |- _ /\ _ => split
           | |- Forall _ _ => constructor
           end; lia. }
  assert (Hpos : 1 <= DataMessage.DataLength sample_message)
    by (unfold sample_message; cbn; lia).
  assert (Hdest : 0 <= DataMessage.Destination sample_message < 0x80)
    by (unfold sample_message, GenericUnit; cbn; lia).
  exact (proj1 (proj2 (proj2 (proj2
           (data_message_round_trip MTS25Z8 Brushed sample_message
              Hwf Hpos Hdest eq_refl))))).
Defined.

(** C6.  When the header read by [ReadData] declares a payload length
    below 1, the call fails with the invalid-data-length error right after
    that header read: on a recording transport the only event added is the
    six-byte read, whatever the device underneath. *)
Theorem read_data_rejects_empty_payload :
  forall (T : Type) `{Unicomm T} (k : KDC101 (Recorder T)) (t' : T)
         (b0 b1 b2 b3 b4 b5 : Z) (rest : list Z),
    comm_Read 6 (inner (Communication k)) =
      (t', Ok (b0 :: b1 :: b2 :: b3 :: b4 :: b5 :: rest)) ->
    Z.lor (Z.shiftl b3 8) b2 < 1 ->
    ReadData k =
      (with_Communication k
         (mkRecorder t' (trace (Communication k) ++ [ReadRequest 6])),
       Err (ErrInvalidDataLength (Z.lor (Z.shiftl b3 8) b2))) /\
    reads (trace (Communication (fst (ReadData k)))) =
      reads (trace (Communication k)) ++ [6%nat] /\
    frames (trace (Communication (fst (ReadData k)))) =
      frames (trace (Communication k)).
Proof.
  intros T HT k t' b0 b1 b2 b3 b4 b5 rest Hread Hlen.
  assert (Hcall : ReadData k =
      (with_Communication k
         (mkRecorder t' (trace (Communication k) ++ [ReadRequest 6])),
       Err (ErrInvalidDataLength (Z.lor (Z.shiftl b3 8) b2)))).
  { unfold ReadData, bind, Communication_Read.
    cbn [comm_Read Recorder_Unicomm]. rewrite Hread.
    cbn [must index nth_error ret DataMessage.DataLength].
    destruct (Z.ltb_spec (Z.lor (Z.shiftl b3 8) b2) 1) as [_ | Hge]; [| lia].
    reflexivity. }
  rewrite Hcall. cbn [fst with_Communication Communication trace].
  repeat split.
  - rewrite reads_app. reflexivity.
  - clear. induction (trace (Communication k)) as [| [bytes | n] tr IH];
      cbn; rewrite ?IH; reflexivity.
Qed.

(** A header declaring length 0 followed by stray bytes: one read, the stray
    bytes stay unread. *)
Lemma read_data_rejects_empty_payload_witness :
  let k := bench MTS25Z8 Brushed [0x91; 0x04; 0x00; 0x00; 0x81; 0x50; 0xAA; 0xBB] in
  ReadData k =
    (New MTS25Z8 Brushed (mkRecorder (mkScript [0xAA; 0xBB]) [ReadRequest 6]),
     Err (ErrInvalidDataLength 0)) /\
  reads (trace (Communication (fst (ReadData k)))) = [6%nat].
Proof.
  intro k.
  destruct (@read_data_rejects_empty_payload Script Script_Unicomm k (mkScript [0xAA; 0xBB])
              0x91 0x04 0x00 0x00 0x81 0x50 [] ltac:(reflexivity) ltac:(cbn; lia))
    as (Hcall & Hreads & _).
  split; [exact Hcall | exact Hreads].
Defined.

(** ** Commands on the wire *)

(** C8.  [MoveAbsolutePosition 1 10.0] on MTS25-Z8 / Brushed makes exactly
    one transport call, the write of one data frame: id [0x0453], length
    field 6, destination byte [0xD0], source [0x01], then the payload
    [0x01, 0x00] and the four little-endian bytes of the position counts. *)
Theorem move_absolute_position_frame :
  forall (T : Type) `{Unicomm T} (device : T),
    let k := New MTS25Z8 Brushed (mkRecorder device []) in
    trace (Communication (fst (MoveAbsolutePosition 1 10%float k))) =
      [Written ([0x53; 0x04; 0x06; 0x00; 0xD0; 0x01] ++ [0x01; 0x00] ++
                Utils.LongToBytes (PositionToCounts k 10%float))] /\
    Utils.LongToBytes (PositionToCounts k 10%float) = [0xCD; 0x45; 0x05; 0x00] /\
    Utils.BytesToLong [0xCD; 0x45; 0x05; 0x00] = Some (PositionToCounts k 10%float).
Proof.
  intros T HT device k.
  split; [| split; reflexivity].
  unfold MoveAbsolutePosition, WriteData, Communication_Write, bind, self.
  cbn [negb Z.eqb Pos.eqb].
  cbn [comm_Write Recorder_Unicomm k New Communication inner trace].
  destruct (comm_Write _ device) as [device' e].
  reflexivity.
Qed.

Lemma field_run {T : Type} `{Unicomm T} {A : Type}
      (conv : list Z -> option A) (data : list Z) (lo hi : nat) (k : KDC101 T) :
  field conv data lo hi k =
    (k,
     match slice (data ++ comm_Spare (Communication k)) [] lo hi with
     | Some bytes => match conv bytes with Some a => Ok a | None => Panic end
     | None => Panic
     end).
Proof.
  unfold field, sliced, bind, slice.
  rewrite app_nil_r, length_app. cbn [length]. rewrite Nat.add_0_r.
  destruct ((lo <=? hi)%nat &&
            (hi <=? length data + length (comm_Spare (Communication k)))%nat);
    cbn [must ret panic]; [| reflexivity].
  destruct (conv _); reflexivity.
Qed.

Lemma slice_within (data spare : list Z) (lo hi : nat) :
  (lo <= hi)%nat -> (hi <= length data)%nat ->
  slice (data ++ spare) [] lo hi = Some (firstn (hi - lo) (skipn lo data)).
Proof.
  intros Hlo Hhi. unfold slice.
  rewrite app_nil_r, length_app.
  replace ((lo <=? hi)%nat && (hi <=? length data + length spare + length (@nil Z))%nat)
    with true
    by (symmetry; apply andb_true_intro; split; apply Nat.leb_le; lia).
  f_equal. rewrite skipn_app.
  replace (lo - length data)%nat with 0%nat by lia.
  rewrite firstn_app, length_skipn.
  replace (hi - lo - (length data - lo))%nat with 0%nat by lia.
  cbn [skipn firstn]. apply app_nil_r.
Qed.

Lemma field_within {T : Type} `{Unicomm T} {A : Type}
      (conv : list Z -> option A) (data : list Z) (lo hi : nat)
      (k : KDC101 T) (a : A) :
  (lo <= hi)%nat -> (hi <= length data)%nat ->
  conv (firstn (hi - lo) (skipn lo data)) = Some a ->
  field conv data lo hi k = (k, Ok a).
Proof.
  intros Hlo Hhi Hconv.
  rewrite field_run, slice_within, Hconv by assumption. reflexivity.
Qed.

Lemma GetDCStatusUpdate_after_reply {T : Type} `{Unicomm T}
      (k k' : KDC101 T) (response : DataMessage.t) :
  RequestData (command 0x0490 1 0x00) k = (k', Ok response) ->
  GetDCStatusUpdate 1 k =
    (k',
     let backing := DataMessage.Data response ++ comm_Spare (Communication k') in
     if (length backing <? 14)%nat then Panic else Ok (dc_status_of backing)).
Proof.
  intros Hreply.
  unfold GetDCStatusUpdate, bind. cbn [negb Z.eqb Pos.eqb]. rewrite Hreply.
  do 5 (rewrite field_run; cbv beta iota).
  cbv zeta.
  generalize (DataMessage.Data response ++ comm_Spare (Communication k')).
  intros backing.
  do 14 (destruct backing as [| ? backing]; [reflexivity |]).
  reflexivity.
Qed.

(** C9, as stated: a reply that declares and delivers one payload byte, read
    into a buffer with 13 more bytes of capacity.  No bound is out of range:
    the call returns a status made of the payload byte and the stale bytes
    that follow it in the buffer. *)
Lemma dc_status_short_payload_in_roomy_buffer :
  GetDCStatusUpdate 1
    (New MTS25Z8 Brushed
       (mkRoomy [0x91; 0x04; 0x01; 0x00; 0x81; 0x50; 0x01]
                [0x00; 0x2E; 0x4F; 0x05; 0x00; 0x32; 0x00; 0xF6; 0xFF;
                 0x01; 0x04; 0x00; 0x80])) =
  (New MTS25Z8 Brushed
     (mkRoomy [] [0x00; 0x2E; 0x4F; 0x05; 0x00; 0x32; 0x00; 0xF6; 0xFF;
                  0x01; 0x04; 0x00; 0x80]),
   Ok dc_status_raw).
Proof. reflexivity. Qed.

(** C9, amended.  [GetDCStatusUpdate] slices the payload up to offset 14
    without looking at its length and has no error for a short reply.  When
    the device answers the request with a data message that declares between
    1 and 13 payload bytes and delivers them, the call panics (a slice bound
    is out of range) if the payload's buffer has a capacity below 14, as a
    buffer allocated to size has, and otherwise returns the status decoded
    from the payload followed by the bytes that lie after it in the buffer;
    it never returns an error. *)
Theorem dc_status_short_payload_unchecked :
  forall (T : Type) `{Unicomm T} (k : KDC101 T) (t1 t2 t3 : T)
         (b0 b1 b2 b3 b4 b5 : Z) (payload : list Z),
    comm_Write dc_status_request (Communication k) = (t1, None) ->
    comm_Read 6 t1 = (t2, Ok [b0; b1; b2; b3; b4; b5]) ->
    1 <= Z.lor (Z.shiftl b3 8) b2 <= 13 ->
    comm_Read (Z.to_nat (Z.lor (Z.shiftl b3 8) b2)) t2 = (t3, Ok payload) ->
    length payload = Z.to_nat (Z.lor (Z.shiftl b3 8) b2) ->
    GetDCStatusUpdate 1 k =
      (with_Communication k t3,
       if (length payload + length (comm_Spare t3) <? 14)%nat
       then Panic
       else Ok (dc_status_of (payload ++ comm_Spare t3))) /\
    (comm_Spare t3 = [] -> GetDCStatusUpdate 1 k = (with_Communication k t3, Panic)).
Proof.
  intros T HT k t1 t2 t3 b0 b1 b2 b3 b4 b5 payload Hwrite Hhead Hlen Hbody Hsize.
  assert (Hreply : RequestData (command 0x0490 1 0x00) k =
                   (with_Communication k t3,
                    Ok (DataMessage.mk (Z.lor (Z.shiftl b1 8) b0)
                          (Z.lor (Z.shiftl b3 8) b2) b4 b5 payload))).
  { unfold RequestData, WriteHeaderOnly, ReadData, Sleep,
      Communication_Write, Communication_Read, bind, ret.
    cbn [command channel_mask HeaderMessage.ID
         HeaderMessage.Parameter1 HeaderMessage.Parameter2
         HeaderMessage.Destination HeaderMessage.Source].
    change (comm_Write _ (Communication k))
      with (comm_Write dc_status_request (Communication k)).
    rewrite Hwrite. cbn [Communication with_Communication]. rewrite Hhead.
    cbn [must index nth_error ret panic DataMessage.DataLength
         Communication with_Communication].
    destruct (Z.ltb_spec (Z.lor (Z.shiftl b3 8) b2) 1) as [Hlt | _]; [lia |].
    cbn [Communication with_Communication]. rewrite Hbody.
    reflexivity. }
  rewrite (GetDCStatusUpdate_after_reply k _ _ Hreply).
  cbn [DataMessage.Data with_Communication Communication]. cbv zeta.
  rewrite length_app.
  split; [reflexivity |].
  intros Hexact. rewrite Hexact, app_nil_r, Nat.add_0_r.
  destruct (Nat.ltb_spec (length payload) 14) as [_ | Hge]; [reflexivity | lia].
Qed.

(** A reply declaring and delivering a single payload byte, in a buffer
    allocated to size. *)
Lemma dc_status_short_payload_unchecked_witness :
  GetDCStatusUpdate 1
    (New MTS25Z8 Brushed (mkScript [0x91; 0x04; 0x01; 0x00; 0x81; 0x50; 0x01])) =
  (New MTS25Z8 Brushed (mkScript []), Panic).
Proof.
  apply (@dc_status_short_payload_unchecked Script Script_Unicomm
           (New MTS25Z8 Brushed (mkScript [0x91; 0x04; 0x01; 0x00; 0x81; 0x50; 0x01]))
           (mkScript [0x91; 0x04; 0x01; 0x00; 0x81; 0x50; 0x01])
           (mkScript [0x01]) (mkScript [])
           0x91 0x04 0x01 0x00 0x81 0x50 [0x01]);
    try reflexivity.
  cbn. lia.
Defined.

(** With 14 payload bytes or more the same call returns a status. *)
Lemma dc_status_full_payload_ok :
  snd (GetDCStatusUpdate 1 (New MTS25Z8 Brushed (mkScript dc_status_reply))) =
  Ok dc_status_raw.
Proof. reflexivity. Qed.

(** ** Signs of float64 quotients *)

Lemma Zdigits2_log2 (m : Z) : 0 < m -> Zdigits2 m = Z.log2 m + 1.
Proof.
  destruct m as [| p | p]; try lia. intros _.
  assert (Hsize : forall q, digits2_pos q = Pos.size q)
    by (induction q; cbn; congruence).
  cbn [Zdigits2]. rewrite Hsize.
  destruct p; cbn [Z.log2 Pos.size]; lia.
Qed.

Lemma shr_1_div2 (r : shr_record) :
  0 <= shr_m r -> shr_m (shr_1 r) = shr_m r / 2.
Proof.
  destruct r as [m r s]. cbn [shr_m]. intros Hm.
  rewrite <- Z.div2_div.
  destruct m as [| [p | p |] | p]; try lia; reflexivity.
Qed.

Lemma pow2_double (p : positive) : 2 ^ Zpos p~0 = 2 ^ Zpos p * 2 ^ Zpos p.
Proof.
  replace (Zpos p~0) with (Zpos p + Zpos p) by lia.
  apply Z.pow_add_r; lia.
Qed.

Lemma pow2_double_succ (p : positive) : 2 ^ Zpos p~1 = 2 * (2 ^ Zpos p * 2 ^ Zpos p).
Proof.
  replace (Zpos p~1) with (1 + Zpos p~0) by lia.
  rewrite Z.pow_add_r, pow2_double by lia. reflexivity.
Qed.

Lemma iter_shr_1_div (p : positive) :
  forall r, 0 <= shr_m r -> shr_m (iter_pos shr_1 p r) = shr_m r / 2 ^ Zpos p.
Proof.
  induction p as [p IH | p IH |]; intros r Hr; cbn [iter_pos].
  - assert (H1 : 0 <= shr_m (shr_1 r))
      by (rewrite shr_1_div2 by assumption; apply Z.div_pos; lia).
    assert (H2 : 0 <= shr_m (iter_pos shr_1 p (shr_1 r)))
      by (rewrite IH by assumption; apply Z.div_pos; lia).
    rewrite IH, IH, shr_1_div2 by assumption.
    rewrite !Z.div_div by lia.
    rewrite pow2_double_succ. reflexivity.
  - assert (H2 : 0 <= shr_m (iter_pos shr_1 p r))
      by (rewrite IH by assumption; apply Z.div_pos; lia).
    rewrite IH, IH by assumption.
    rewrite Z.div_div by lia.
    rewrite pow2_double. reflexivity.
  - rewrite shr_1_div2 by assumption. reflexivity.
Qed.

Lemma shr_m_of_loc (m : Z) (l : location) : shr_m (shr_record_of_loc m l) = m.
Proof. destruct l as [| []]; reflexivity. Qed.

Lemma shr_fexp_normal (m e : Z) (l : location) :
  0 < m ->
  SpecFloat.emin prec emax <= Zdigits2 m + e - prec ->
  exists r e',
    shr_fexp prec emax m e l = (r, e') /\
    0 < shr_m r /\ e <= e' /\
    Zdigits2 (shr_m r) + e' = Zdigits2 m + e.
Proof.
  intros Hm Hnormal.
  unfold shr_fexp, shr, SpecFloat.fexp.
  rewrite Z.max_l by assumption.
  replace (Zdigits2 m + e - prec - e) with (Zdigits2 m - prec) by lia.
  destruct (Zdigits2 m - prec) as [| p | p] eqn:Hshift.
  1, 3: eexists; eexists; split; [reflexivity |];
        rewrite shr_m_of_loc; lia.
  eexists; eexists; split; [reflexivity |].
  rewrite iter_shr_1_div by (rewrite shr_m_of_loc; lia).
  rewrite shr_m_of_loc.
  rewrite (Zdigits2_log2 m Hm) in Hshift |- *.
  assert (Hp : Zpos p <= Z.log2 m) by (unfold prec in Hshift; lia).
  assert (Hlow : 2 ^ Zpos p <= m).
  { transitivity (2 ^ Z.log2 m).
    - apply Z.pow_le_mono_r; lia.
    - apply Z.log2_spec; assumption. }
  assert (Hq : 0 < m / 2 ^ Zpos p) by (apply Z.div_str_pos; lia).
  rewrite (Zdigits2_log2 _ Hq).
  rewrite <- Z.shiftr_div_pow2, Z.log2_shiftr by lia.
  split; [rewrite Z.shiftr_div_pow2 by lia; exact Hq | lia].
Qed.

Lemma round_nearest_even_bounds (m : Z) (l : location) :
  m <= round_nearest_even m l <= m + 1.
Proof.
  unfold round_nearest_even.
  destruct l as [| []]; try destruct (Z.even m); lia.
Qed.

(** Rounding a positive mantissa in the normal range keeps the sign and
    never underflows. *)
Lemma binary_round_aux_sign (sx : bool) (mx ex : Z) (lx : location) :
  0 < mx ->
  SpecFloat.emin prec emax <= Zdigits2 mx + ex - prec ->
  binary_round_aux prec emax sx mx ex lx = S754_infinity sx \/
  exists m e,
    binary_round_aux prec emax sx mx ex lx = S754_finite sx m e /\
    ex <= e /\ Zdigits2 mx + ex <= Zdigits2 (Zpos m) + e.
Proof.
  intros Hm Hnormal. unfold binary_round_aux.
  destruct (shr_fexp_normal mx ex lx Hm Hnormal) as (r1 & e1 & -> & Hr1 & He1 & Hd1).
  pose proof (round_nearest_even_bounds (shr_m r1) (loc_of_shr_record r1)) as Hround.
  set (m2 := round_nearest_even (shr_m r1) (loc_of_shr_record r1)) in *.
  assert (Hm2 : 0 < m2) by lia.
  assert (Hd2 : Zdigits2 (shr_m r1) <= Zdigits2 m2).
  { rewrite !Zdigits2_log2 by lia.
    apply Z.add_le_mono_r, Z.log2_le_mono. lia. }
  destruct (shr_fexp_normal m2 e1 loc_Exact Hm2 ltac:(lia))
    as (r2 & e2 & -> & Hr2 & He2 & Hd3).
  destruct (shr_m r2) as [| m | m] eqn:Hmant; try lia.
  destruct (e2 <=? emax - prec); [right | left; reflexivity].
  exists m, e2. repeat split; lia.
Qed.

Lemma Zdigits2_bounds (m : Z) :
  0 < m -> 2 ^ (Zdigits2 m - 1) <= m < 2 ^ Zdigits2 m /\ 1 <= Zdigits2 m.
Proof.
  intros Hm. rewrite Zdigits2_log2 by assumption.
  pose proof (Z.log2_spec m Hm) as Hspec.
  pose proof (Z.log2_nonneg m) as Hnonneg.
  replace (Z.log2 m + 1 - 1) with (Z.log2 m) by lia.
  replace (Z.log2 m + 1) with (Z.succ (Z.log2 m)) by lia.
  lia.
Qed.

(** The sign of a quotient of finite floats whose exponents are moderate:
    no underflow to zero and no NaN. *)
Lemma SFdiv_finite_sign (sx sy : bool) (m1 m2 : positive) (e1 e2 : Z) :
  -52 <= e1 -> -51 <= Zdigits2 (Zpos m1) + e1 ->
  -200 <= e2 <= 200 -> Zdigits2 (Zpos m2) + e2 <= 200 ->
  let q := SFdiv prec emax (S754_finite sx m1 e1) (S754_finite sy m2 e2) in
  q = S754_infinity (xorb sx sy) \/ exists m e, q = S754_finite (xorb sx sy) m e.
Proof.
  intros He1 Hd1 He2 Hd2. cbn [SFdiv]. unfold SFdiv_core_binary.
  destruct (Zdigits2_bounds (Zpos m1) ltac:(lia)) as [Hm1 Hpos1].
  destruct (Zdigits2_bounds (Zpos m2) ltac:(lia)) as [Hm2 Hpos2].
  set (d1 := Zdigits2 (Zpos m1)) in *. set (d2 := Zdigits2 (Zpos m2)) in *.
  unfold SpecFloat.fexp.
  rewrite Z.max_l by (unfold SpecFloat.emin, prec, emax; lia).
  set (e' := Z.min (d1 + e1 - (d2 + e2) - prec) (e1 - e2)).
  assert (He' : e1 - e2 - e' = Z.max (prec + d2 - d1) 0) by (unfold e'; lia).
  set (m' := match e1 - e2 - e' with
             | 0 => Zpos m1
             | Zpos _ => Z.shiftl (Zpos m1) (e1 - e2 - e')
             | Zneg _ => 0
             end).
  assert (Hm' : Zpos m2 <= m').
  { assert (Hpow : 2 ^ d2 <= 2 ^ (d1 - 1 + Z.max (prec + d2 - d1) 0))
      by (apply Z.pow_le_mono_r; unfold prec; lia).
    rewrite Z.pow_add_r in Hpow by lia.
    assert (Hshift : 2 ^ (d1 - 1) * 2 ^ Z.max (prec + d2 - d1) 0 <=
                     Zpos m1 * 2 ^ Z.max (prec + d2 - d1) 0)
      by (apply Z.mul_le_mono_nonneg_r; [apply Z.pow_nonneg |]; lia).
    unfold m'. rewrite He'.
    destruct (Z.max (prec + d2 - d1) 0) as [| s | s] eqn:Hs; try lia.
    rewrite Z.shiftl_mul_pow2 by lia. lia. }
  pose proof (Z_div_mod m' (Zpos m2) ltac:(lia)) as Hdiv.
  destruct (Z.div_eucl m' (Zpos m2)) as [q r].
  assert (Hq : 0 < q) by nia.
  destruct (Zdigits2_bounds q Hq) as [_ Hdq].
  destruct (binary_round_aux_sign (xorb sx sy) q e' (new_location (Zpos m2) r) Hq)
    as [Hinf | (m & e & Hfin & _)].
  - unfold SpecFloat.emin, prec, emax, e' in *. lia.
  - left. exact Hinf.
  - right. exists m, e. exact Hfin.
Qed.

(** [float64(n)] of a negative integer is a negative float of moderate
    exponent. *)
Lemma float_of_int_negative (p : positive) :
  Zpos p < 2 ^ 63 ->
  Prim2SF (float_of_int (Zneg p)) = S754_infinity true \/
  exists m e,
    Prim2SF (float_of_int (Zneg p)) = S754_finite true m e /\
    -52 <= e /\ -51 <= Zdigits2 (Zpos m) + e.
Proof.
  intros Hp. cbn [float_of_int].
  rewrite opp_spec, of_uint63_spec, Uint63.of_Z_spec.
  rewrite Z.mod_small by (change Uint63.wB with (2 ^ 63); lia).
  cbn [binary_normalize]. unfold binary_round, shl_align.
  destruct (Zdigits2_bounds (Zpos p) ltac:(lia)) as [_ Hdp].
  cbn [Zdigits2] in Hdp.
  set (ex' := SpecFloat.fexp prec emax (Zpos (digits2_pos p) + 0)).
  assert (Hex' : -52 <= ex')
    by (unfold ex', SpecFloat.fexp, SpecFloat.emin, prec, emax; lia).
  destruct (ex' - 0) as [| d | d] eqn:Hshift.
  1, 2: destruct (binary_round_aux_sign false (Zpos p) 0 loc_Exact ltac:(lia))
      as [-> | (m & e & -> & He & Hd)];
    [ unfold SpecFloat.emin, prec, emax; cbn [Zdigits2];
      unfold ex', SpecFloat.fexp, SpecFloat.emin, prec, emax in Hshift; lia
    | left; reflexivity
    | right; exists m, e; cbn [SFopp negb Zdigits2] in *; repeat split; lia ].
  destruct (Zdigits2_bounds (Zpos (Pos.iter xO p d)) ltac:(lia)) as [_ Hdz].
  destruct (binary_round_aux_sign false (Zpos (Pos.iter xO p d)) ex' loc_Exact
              ltac:(lia))
    as [-> | (m & e & -> & He & Hd)].
  - unfold SpecFloat.emin, prec, emax. lia.
  - left. reflexivity.
  - right. exists m, e. cbn [SFopp negb]. repeat split; lia.
Qed.

Lemma acceleration_scale_moderate {T} (k : KDC101 T) :
  moderate_positive (Prim2SF (acceleration_scale k)) = true.
Proof.
  unfold acceleration_scale, map_index, StageScalingFactor, MotorTFactor.
  cbn [map_get].
  repeat match goal with
         | |- context [String.eqb ?a ?b] => destruct (String.eqb a b)
         end; vm_compute; reflexivity.
Qed.

(** Whatever the calibration, a negative count converts to a negative
    acceleration. *)
Lemma CountsToAcceleration_negative {T} (k : KDC101 T) (counts : Z) :
  - 2 ^ 63 < counts < 0 ->
  (CountsToAcceleration k counts <? 0)%float = true.
Proof.
  intros Hcounts. destruct counts as [| p | p]; try lia.
  change (CountsToAcceleration k (Zneg p))
    with (float_of_int (Zneg p) / acceleration_scale k)%float.
  rewrite ltb_spec, div_spec.
  pose proof (acceleration_scale_moderate k) as Hscale.
  change (Prim2SF 0) with (S754_zero false).
  unfold SF64div.
  destruct (float_of_int_negative p ltac:(lia)) as [-> | (m & e & -> & He & Hd)];
    destruct (Prim2SF (acceleration_scale k)) as [[] | [] | | [] m2 e2];
    try discriminate Hscale; try reflexivity.
  cbn [moderate_positive] in Hscale.
  apply andb_prop in Hscale as [Hscale Hd2].
  apply andb_prop in Hscale as [Hlo Hhi].
  apply Z.leb_le in Hlo, Hhi, Hd2.
  destruct (SFdiv_finite_sign true false m m2 e e2 He Hd ltac:(lia) Hd2)
    as [-> | (m' & e' & ->)]; reflexivity.
Qed.

(** ** The trapezoidal velocity profile on the wire *)

Lemma Uint32_PutUint32 (v : Z) :
  is_uint32 v ->
  Utils.LittleEndian_Uint32 (Utils.LittleEndian_PutUint32 v) = Some v.
Proof.
  unfold is_uint32, Utils.LittleEndian_PutUint32, Utils.LittleEndian_Uint32, uint8.
  intros Hv. f_equal.
  rewrite !Z.shiftr_div_pow2 by lia.
  set (b0 := v mod 2 ^ 8). set (b1 := v / 2 ^ 8 mod 2 ^ 8).
  set (b2 := v / 2 ^ 16 mod 2 ^ 8). set (b3 := v / 2 ^ 24 mod 2 ^ 8).
  assert (H0 : 0 <= b0 < 2 ^ 8) by (apply Z.mod_pos_bound; lia).
  assert (H1 : 0 <= b1 < 2 ^ 8) by (apply Z.mod_pos_bound; lia).
  assert (H2 : 0 <= b2 < 2 ^ 8) by (apply Z.mod_pos_bound; lia).
  assert (H3 : 0 <= b3 < 2 ^ 8) by (apply Z.mod_pos_bound; lia).
  rewrite (Z.lor_comm b0), (lor_shiftl_low b1 b0 8) by lia.
  rewrite (Z.lor_comm _ (Z.shiftl b2 16)), (lor_shiftl_low b2 _ 16) by lia.
  rewrite (Z.lor_comm _ (Z.shiftl b3 24)), (lor_shiftl_low b3 _ 24) by lia.
  subst b0 b1 b2 b3.
  change (2 ^ 16) with (2 ^ 8 * 2 ^ 8).
  change (2 ^ 24) with (2 ^ 8 * 2 ^ 8 * 2 ^ 8).
  rewrite <- !Z.div_div by lia.
  change (2 ^ 8) with 256 in *. change (2 ^ 32) with 4294967296 in *.
  Z.div_mod_to_equations. lia.
Qed.

Lemma GetTrapezoidalVelocity_reply (stage motor : string)
      (c0 c1 : Z) (minVel accel maxVel : list Z) :
  length minVel = 4%nat -> length accel = 4%nat -> length maxVel = 4%nat ->
  let k := New stage motor (mkScript (velocity_reply ([c0; c1] ++ minVel ++ accel ++ maxVel))) in
  exists a b c,
    Utils.BytesToDword minVel = Some a /\
    Utils.BytesToLong accel = Some b /\
    Utils.BytesToDword maxVel = Some c /\
    snd (GetTrapezoidalVelocity 1 k) =
      Ok {| VelocityProfile.MinVelocity := CountsToVelocity k a;
            VelocityProfile.Acceleration := CountsToAcceleration k b;
            VelocityProfile.MaxVelocity := CountsToVelocity k c |}.
Proof.
  intros Hmin Hacc Hmax.
  destruct minVel as [| a0 [| a1 [| a2 [| a3 [| ? ?]]]]]; try discriminate Hmin.
  destruct accel as [| b0 [| b1 [| b2 [| b3 [| ? ?]]]]]; try discriminate Hacc.
  destruct maxVel as [| d0 [| d1 [| d2 [| d3 [| ? ?]]]]]; try discriminate Hmax.
  intro k. do 3 eexists. repeat split.
Qed.

Lemma float_to_uint32_range (f : float64) : is_uint32 (float_to_uint32 f).
Proof.
  unfold float_to_uint32, is_uint32, uint32.
  destruct (float_trunc f) as [z |]; [| lia].
  destruct ((- 2 ^ 63 <=? z) && (z <? 2 ^ 63)); [| lia].
  apply Z.mod_pos_bound. lia.
Qed.

Lemma float_lt_not_le (x : float64) :
  (x <? 0)%float = true -> (0 <=? x)%float = true -> False.
Proof.
  rewrite ltb_spec, leb_spec. change (Prim2SF 0) with (S754_zero false).
  destruct (Prim2SF x) as [[] | [] | | [] m e]; cbn; discriminate.
Qed.

(** C10, as stated: an acceleration of -1.4970950230254689 mm/s^2 on
    MTS25-Z8 / Brushed has the count 4294966901, which is at least 2^31, and
    the profile read back holds exactly the acceleration that was set. *)
Lemma negative_acceleration_reads_back :
  let profile := {| VelocityProfile.MinVelocity := 0%float;
                    VelocityProfile.MaxVelocity := 1%float;
                    VelocityProfile.Acceleration := (-1.4970950230254689)%float |} in
  let k := bench MTS25Z8 Brushed [] in
  AccelerationToCounts k (VelocityProfile.Acceleration profile) = 4294966901 /\
  2 ^ 31 <= 4294966901 /\
  exists profile',
    snd (GetTrapezoidalVelocity 1
           (New MTS25Z8 Brushed (mkScript (velocity_reply (velocity_payload k profile))))) =
      Ok profile' /\
    VelocityProfile.Acceleration profile' = VelocityProfile.Acceleration profile.
Proof.
  intros profile k.
  split; [vm_compute; reflexivity |].
  split; [lia |].
  eexists. split; [vm_compute; reflexivity | reflexivity].
Qed.

(** C10, amended.  [SetTrapezoidalVelocity] sends the acceleration count as
    an unsigned 32-bit field; [GetTrapezoidalVelocity] reads the same four
    bytes as a signed one.  When the device replies with the payload it was
    sent and the count is at least 2^31, the profile read back has the
    acceleration of the count minus 2^32, which is negative; it therefore
    differs from the acceleration that was set whenever that one was not
    negative. *)
Theorem trapezoidal_acceleration_sign_flip :
  forall (stage motor : string) (profile : VelocityProfile.t),
    let k := bench stage motor [] in
    let accel := AccelerationToCounts k (VelocityProfile.Acceleration profile) in
    let payload := velocity_payload k profile in
    let k' := New stage motor (mkScript (velocity_reply payload)) in
    2 ^ 31 <= accel ->
    frames (trace (Communication (fst (SetTrapezoidalVelocity 1 profile k)))) =
      [[0x13; 0x04; 0x0E; 0x00; 0xD0; 0x01] ++ payload] /\
    (forall spare, slice payload spare 6 10 = Some (Utils.DwordToBytes accel)) /\
    Utils.BytesToDword (Utils.DwordToBytes accel) = Some accel /\
    Utils.BytesToLong (Utils.DwordToBytes accel) = Some (accel - 2 ^ 32) /\
    exists profile',
      snd (GetTrapezoidalVelocity 1 k') = Ok profile' /\
      VelocityProfile.Acceleration profile' = CountsToAcceleration k' (accel - 2 ^ 32) /\
      (VelocityProfile.Acceleration profile' <? 0)%float = true /\
      ((0 <=? VelocityProfile.Acceleration profile)%float = true ->
       VelocityProfile.Acceleration profile' <> VelocityProfile.Acceleration profile).
Proof.
  intros stage motor profile k accel payload k' Hbig.
  assert (Hrange : is_uint32 accel) by apply float_to_uint32_range.
  assert (Hunsigned : Utils.BytesToDword (Utils.DwordToBytes accel) = Some accel)
    by (apply Uint32_PutUint32; assumption).
  assert (Hsigned : Utils.BytesToLong (Utils.DwordToBytes accel) = Some (accel - 2 ^ 32)).
  { unfold Utils.BytesToLong, Utils.DwordToBytes.
    rewrite Uint32_PutUint32 by assumption.
    cbn [option_map]. unfold int32, is_uint32 in *.
    rewrite Z.mod_small by assumption.
    destruct (Z.ltb_spec accel (2 ^ 31)); [lia | reflexivity]. }
  split; [reflexivity |].
  split; [intro spare; reflexivity |].
  split; [exact Hunsigned |].
  split; [exact Hsigned |].
  destruct (GetTrapezoidalVelocity_reply stage motor 0x01 0x00
              (Utils.DwordToBytes
                 (VelocityToCounts k (VelocityProfile.MinVelocity profile)))
              (Utils.DwordToBytes accel)
              (Utils.DwordToBytes
                 (VelocityToCounts k (VelocityProfile.MaxVelocity profile)))
              eq_refl eq_refl eq_refl)
    as (a & b & c & _ & Hb & _ & Hcall).
  rewrite Hsigned in Hb. injection Hb as <-.
  assert (Hneg : (CountsToAcceleration k' (accel - 2 ^ 32) <? 0)%float = true)
    by (apply CountsToAcceleration_negative; unfold is_uint32 in Hrange; lia).
  eexists. split; [exact Hcall |].
  cbn [VelocityProfile.Acceleration].
  split; [reflexivity |].
  split; [exact Hneg |].
  intros Hset Heq.
  change (CountsToAcceleration k' (accel - 2 ^ 32) =
          VelocityProfile.Acceleration profile) in Heq.
  rewrite Heq in Hneg.
  exact (float_lt_not_le _ Hneg Hset).
Qed.

(** An acceleration of 10^7 mm/s^2 on MTS25-Z8 / Brushed: its count exceeds
    2^31 and the profile read back is negative. *)
Lemma trapezoidal_acceleration_sign_flip_witness :
  let profile := {| VelocityProfile.MinVelocity := 0%float;
                    VelocityProfile.MaxVelocity := 1%float;
                    VelocityProfile.Acceleration := 10000000%float |} in
  let k := bench MTS25Z8 Brushed [] in
  2 ^ 31 <= AccelerationToCounts k (VelocityProfile.Acceleration profile) /\
  exists profile',
    snd (GetTrapezoidalVelocity 1
           (New MTS25Z8 Brushed (mkScript (velocity_reply (velocity_payload k profile))))) =
      Ok profile' /\
    (VelocityProfile.Acceleration profile' <? 0)%float = true.
Proof.
  intros profile k.
  assert (Hbig : 2 ^ 31 <= AccelerationToCounts k (VelocityProfile.Acceleration profile))
    by (vm_compute; discriminate).
  split; [exact Hbig |].
  destruct (trapezoidal_acceleration_sign_flip MTS25Z8 Brushed profile Hbig)
    as (_ & _ & _ & _ & profile' & Hcall & _ & Hneg & _).
  exists profile'. split; [exact Hcall | exact Hneg].
Defined.

(** * Further properties *)

(** ** Little-endian conversions *)

Lemma le32_value (b0 b1 b2 b3 : Z) :
  is_byte b0 -> is_byte b1 -> is_byte b2 -> is_byte b3 ->
  Z.lor (Z.lor (Z.lor b0 (Z.shiftl b1 8)) (Z.shiftl b2 16)) (Z.shiftl b3 24) =
  b0 + b1 * 2 ^ 8 + b2 * 2 ^ 16 + b3 * 2 ^ 24.
Proof.
  unfold is_byte. intros H0 H1 H2 H3.
  rewrite (Z.lor_comm b0), (lor_shiftl_low b1 b0 8) by lia.
  rewrite (Z.lor_comm _ (Z.shiftl b2 16)), (lor_shiftl_low b2 _ 16) by lia.
  rewrite (Z.lor_comm _ (Z.shiftl b3 24)), (lor_shiftl_low b3 _ 24) by lia.
  lia.
Qed.

Lemma le16_value (b0 b1 : Z) :
  is_byte b0 -> is_byte b1 -> Z.lor b0 (Z.shiftl b1 8) = b0 + b1 * 2 ^ 8.
Proof.
  unfold is_byte. intros H0 H1.
  rewrite Z.lor_comm, lor_shiftl_low by lia. lia.
Qed.

Lemma Uint16_PutUint16 (v : Z) :
  is_uint16 v ->
  Utils.LittleEndian_Uint16 (Utils.LittleEndian_PutUint16 v) = Some v.
Proof.
  unfold is_uint16, Utils.LittleEndian_PutUint16, Utils.LittleEndian_Uint16, uint8.
  intros Hv. f_equal.
  rewrite Z.shiftr_div_pow2 by lia.
  rewrite le16_value by (unfold is_byte; apply Z.mod_pos_bound; lia).
  change (2 ^ 8) with 256 in *. change (2 ^ 16) with 65536 in *.
  Z.div_mod_to_equations. lia.
Qed.

Lemma int32_of_uint32 (v : Z) : is_int32 v -> int32 (uint32 v) = v.
Proof.
  unfold is_int32, int32, uint32. intros Hv.
  rewrite Z.mod_mod by lia.
  change (2 ^ 31) with 2147483648 in *. change (2 ^ 32) with 4294967296 in *.
  destruct (Z.ltb_spec (v mod 4294967296) 2147483648);
    Z.div_mod_to_equations; lia.
Qed.

Lemma int16_of_uint16 (v : Z) :
  - 2 ^ 15 <= v < 2 ^ 15 -> int16 (uint16 v) = v.
Proof.
  unfold int16, uint16. intros Hv.
  rewrite Z.mod_mod by lia.
  change (2 ^ 15) with 32768 in *. change (2 ^ 16) with 65536 in *.
  destruct (Z.ltb_spec (v mod 65536) 32768);
    Z.div_mod_to_equations; lia.
Qed.

Lemma int32_range (z : Z) : is_int32 (int32 z).
Proof.
  unfold is_int32, int32.
  pose proof (Z.mod_pos_bound z (2 ^ 32) ltac:(lia)) as Hmod.
  destruct (Z.ltb_spec (z mod 2 ^ 32) (2 ^ 31)); lia.
Qed.

(** X1.  A signed 32-bit value written by [LongToBytes] is read back by
    [BytesToLong]. *)
Theorem long_bytes_round_trip (value : Z) :
  is_int32 value ->
  Utils.BytesToLong (Utils.LongToBytes value) = Some value.
Proof.
  intros Hv. unfold Utils.BytesToLong, Utils.LongToBytes.
  rewrite Uint32_PutUint32 by (apply Z.mod_pos_bound; lia).
  cbn [option_map]. rewrite int32_of_uint32 by assumption. reflexivity.
Qed.

Lemma long_bytes_round_trip_witness :
  Utils.BytesToLong (Utils.LongToBytes (-345549)) = Some (-345549).
Proof.
  apply long_bytes_round_trip. unfold is_int32. lia.
Defined.

(** X2.  An unsigned 32-bit value written by [DwordToBytes] is read back by
    [BytesToDword], and a 16-bit one written by [WordToBytes] by
    [BytesToWord]. *)
Theorem dword_word_bytes_round_trip (dword word : Z) :
  is_uint32 dword -> is_uint16 word ->
  Utils.BytesToDword (Utils.DwordToBytes dword) = Some dword /\
  Utils.BytesToWord (Utils.WordToBytes word) = Some word.
Proof.
  intros Hd Hw. split.
  - apply Uint32_PutUint32. assumption.
  - apply Uint16_PutUint16. assumption.
Qed.

Lemma dword_word_bytes_round_trip_witness :
  Utils.BytesToDword (Utils.DwordToBytes 0x80000401) = Some 0x80000401 /\
  Utils.BytesToWord (Utils.WordToBytes 0xFFF6) = Some 0xFFF6.
Proof.
  apply dword_word_bytes_round_trip; unfold is_uint32, is_uint16; lia.
Defined.

(** X3.  A signed 16-bit value written by [ShortToBytes] is read back by
    [BytesToShort]. *)
Theorem short_bytes_round_trip (value : Z) :
  - 2 ^ 15 <= value < 2 ^ 15 ->
  Utils.BytesToShort (Utils.ShortToBytes value) = Some value.
Proof.
  intros Hv. unfold Utils.BytesToShort, Utils.ShortToBytes.
  rewrite Uint16_PutUint16 by (apply Z.mod_pos_bound; lia).
  cbn [option_map]. rewrite int16_of_uint16 by assumption. reflexivity.
Qed.

Lemma short_bytes_round_trip_witness :
  Utils.BytesToShort (Utils.ShortToBytes (-10)) = Some (-10).
Proof.
  apply short_bytes_round_trip. lia.
Defined.

(** X4.  Four bytes read as a long or a dword and written back are the same
    four bytes; so are two bytes read as a word or a short. *)
Theorem bytes_value_bytes (b0 b1 b2 b3 : Z) :
  is_byte b0 -> is_byte b1 -> is_byte b2 -> is_byte b3 ->
  option_map Utils.LongToBytes (Utils.BytesToLong [b0; b1; b2; b3]) =
    Some [b0; b1; b2; b3] /\
  option_map Utils.DwordToBytes (Utils.BytesToDword [b0; b1; b2; b3]) =
    Some [b0; b1; b2; b3] /\
  option_map Utils.WordToBytes (Utils.BytesToWord [b0; b1]) = Some [b0; b1] /\
  option_map Utils.ShortToBytes (Utils.BytesToShort [b0; b1]) = Some [b0; b1].
Proof.
  intros H0 H1 H2 H3.
  assert (Hput32 : Utils.LittleEndian_PutUint32
            (b0 + b1 * 2 ^ 8 + b2 * 2 ^ 16 + b3 * 2 ^ 24) = [b0; b1; b2; b3]).
  { unfold Utils.LittleEndian_PutUint32, uint8, is_byte in *.
    rewrite !Z.shiftr_div_pow2 by lia.
    change (2 ^ 8) with 256. change (2 ^ 16) with 65536.
    change (2 ^ 24) with 16777216.
    repeat f_equal; Z.div_mod_to_equations; lia. }
  assert (Hput16 : Utils.LittleEndian_PutUint16 (b0 + b1 * 2 ^ 8) = [b0; b1]).
  { unfold Utils.LittleEndian_PutUint16, uint8, is_byte in *.
    rewrite !Z.shiftr_div_pow2 by lia.
    change (2 ^ 8) with 256.
    repeat f_equal; Z.div_mod_to_equations; lia. }
  assert (Hu32 : is_uint32 (b0 + b1 * 2 ^ 8 + b2 * 2 ^ 16 + b3 * 2 ^ 24))
    by (unfold is_uint32, is_byte in *; lia).
  assert (Hu16 : is_uint16 (b0 + b1 * 2 ^ 8))
    by (unfold is_uint16, is_byte in *; lia).
  assert (Hwrap32 : uint32 (int32 (b0 + b1 * 2 ^ 8 + b2 * 2 ^ 16 + b3 * 2 ^ 24)) =
                    b0 + b1 * 2 ^ 8 + b2 * 2 ^ 16 + b3 * 2 ^ 24).
  { unfold int32, uint32, is_uint32 in *. rewrite (Z.mod_small _ _ Hu32).
    destruct (Z.ltb_spec (b0 + b1 * 2 ^ 8 + b2 * 2 ^ 16 + b3 * 2 ^ 24) (2 ^ 31)).
    - apply Z.mod_small. lia.
    - rewrite <- (Z.mod_add _ 1) by lia.
      rewrite <- (Z.mod_small _ _ Hu32) at 2. f_equal. lia. }
  assert (Hwrap16 : uint16 (int16 (b0 + b1 * 2 ^ 8)) = b0 + b1 * 2 ^ 8).
  { unfold int16, uint16, is_uint16 in *. rewrite (Z.mod_small _ _ Hu16).
    destruct (Z.ltb_spec (b0 + b1 * 2 ^ 8) (2 ^ 15)).
    - apply Z.mod_small. lia.
    - rewrite <- (Z.mod_add _ 1) by lia.
      rewrite <- (Z.mod_small _ _ Hu16) at 2. f_equal. lia. }
  unfold Utils.BytesToLong, Utils.BytesToDword, Utils.BytesToWord,
    Utils.BytesToShort, Utils.LongToBytes, Utils.DwordToBytes,
    Utils.WordToBytes, Utils.ShortToBytes,
    Utils.LittleEndian_Uint32, Utils.LittleEndian_Uint16.
  cbn [option_map].
  rewrite le32_value, le16_value by assumption.
  rewrite Hwrap32, Hwrap16, Hput32, Hput16.
  repeat split.
Qed.

Lemma bytes_value_bytes_witness :
  option_map Utils.LongToBytes (Utils.BytesToLong [0xCD; 0x45; 0x05; 0xFF]) =
    Some [0xCD; 0x45; 0x05; 0xFF].
Proof.
  apply (bytes_value_bytes 0xCD 0x45 0x05 0xFF); unfold is_byte; lia.
Defined.

(** X5.  A decoder panics exactly when its slice is too short (fewer than
    four bytes for a long or dword, fewer than two for a word or short), and
    bytes after the ones it needs are ignored. *)
Theorem decoders_need_their_bytes (data rest : list Z) (b0 b1 b2 b3 : Z) :
  (Utils.BytesToLong data = None <-> (length data < 4)%nat) /\
  (Utils.BytesToDword data = None <-> (length data < 4)%nat) /\
  (Utils.BytesToWord data = None <-> (length data < 2)%nat) /\
  (Utils.BytesToShort data = None <-> (length data < 2)%nat) /\
  Utils.BytesToLong (b0 :: b1 :: b2 :: b3 :: rest) = Utils.BytesToLong [b0; b1; b2; b3] /\
  Utils.BytesToDword (b0 :: b1 :: b2 :: b3 :: rest) = Utils.BytesToDword [b0; b1; b2; b3] /\
  Utils.BytesToWord (b0 :: b1 :: rest) = Utils.BytesToWord [b0; b1] /\
  Utils.BytesToShort (b0 :: b1 :: rest) = Utils.BytesToShort [b0; b1].
Proof.
  unfold Utils.BytesToLong, Utils.BytesToDword, Utils.BytesToWord,
    Utils.BytesToShort, Utils.LittleEndian_Uint32, Utils.LittleEndian_Uint16.
  destruct data as [| a0 [| a1 [| a2 [| a3 data]]]]; cbn;
    repeat split; intros; try discriminate; try lia; reflexivity.
Qed.

(** ** Framing over an arbitrary transport *)

Lemma frames_app (tr tr' : list event) : frames (tr ++ tr') = frames tr ++ frames tr'.
Proof.
  induction tr as [| [bytes | n] tr IH]; cbn; rewrite ?IH; reflexivity.
Qed.

(** X6.  A header-only message written by [WriteHeaderOnly] is six bytes,
    and [ReadHeaderOnly] on those bytes gives the message back unchanged. *)
Theorem header_message_round_trip (stage motor : string) (msg : HeaderMessage.t) :
  is_uint16 (HeaderMessage.ID msg) ->
  frames (trace (Communication (fst (WriteHeaderOnly msg (bench stage motor []))))) =
    [header_bytes msg] /\
  length (header_bytes msg) = 6%nat /\
  ReadHeaderOnly (New stage motor (mkScript (header_bytes msg))) =
    (New stage motor (mkScript []), Ok msg).
Proof.
  intros Hid. repeat split.
  pose proof (Script_read_app (header_bytes msg) []) as Hhead.
  rewrite app_nil_r in Hhead.
  change (length (header_bytes msg)) with 6%nat in Hhead.
  unfold ReadHeaderOnly, bind, Communication_Read, New.
  cbn [Communication]. rewrite Hhead.
  cbn [with_Communication StageType MotorType Communication must index
       nth_error header_bytes ret].
  rewrite uint16_bytes_join by assumption.
  destruct msg; reflexivity.
Qed.

Lemma header_message_round_trip_witness :
  ReadHeaderOnly (New MTS25Z8 Brushed (mkScript (header_bytes (command 0x0224 1 0x01)))) =
  (New MTS25Z8 Brushed (mkScript []), Ok (command 0x0224 1 0x01)).
Proof.
  apply (header_message_round_trip MTS25Z8 Brushed (command 0x0224 1 0x01)).
  unfold is_uint16. cbn. lia.
Defined.

(** X7.  When the transport answers the six-byte read with a header that
    declares [n >= 1] payload bytes and the read of [n] bytes with a
    payload, [ReadData] makes exactly these two reads and returns the decoded
    header with that payload attached, whatever the payload's length. *)
Theorem read_data_two_reads :
  forall (T : Type) `{Unicomm T} (k : KDC101 (Recorder T)) (t1 t2 : T)
         (header payload : list Z),
    comm_Read 6 (inner (Communication k)) = (t1, Ok header) ->
    length header = 6%nat ->
    1 <= declared_length header ->
    comm_Read (Z.to_nat (declared_length header)) t1 = (t2, Ok payload) ->
    ReadData k =
      (with_Communication k
         (mkRecorder t2 (trace (Communication k) ++
                         [ReadRequest 6; ReadRequest (Z.to_nat (declared_length header))])),
       Ok (data_message_of header payload)).
Proof.
  intros T HT k t1 t2 header payload Hhead Hlen Hdecl Hbody.
  destruct header as [| b0 [| b1 [| b2 [| b3 [| b4 [| b5 [| ? ?]]]]]]];
    try discriminate Hlen.
  unfold declared_length in *. cbn [nth] in *.
  unfold ReadData, bind, Communication_Read.
  cbn [comm_Read Recorder_Unicomm]. rewrite Hhead.
  cbn [must index nth_error ret DataMessage.DataLength
       with_Communication Communication inner trace].
  destruct (Z.ltb_spec (Z.lor (Z.shiftl b3 8) b2) 1) as [Hlt | _]; [lia |].
  cbn [comm_Read Recorder_Unicomm Communication with_Communication inner trace].
  rewrite Hbody. unfold with_Communication, data_message_of, DataMessage.with_Data.
  cbn. rewrite <- app_assoc. reflexivity.
Qed.

Lemma read_data_two_reads_witness :
  ReadData (bench MTS25Z8 Brushed [0x91; 0x04; 0x02; 0x00; 0x81; 0x50; 0xAA; 0xBB]) =
  (New MTS25Z8 Brushed
     (mkRecorder (mkScript []) [ReadRequest 6; ReadRequest 2]),
   Ok (data_message_of [0x91; 0x04; 0x02; 0x00; 0x81; 0x50] [0xAA; 0xBB])).
Proof.
  apply (@read_data_two_reads Script Script_Unicomm
           (bench MTS25Z8 Brushed [0x91; 0x04; 0x02; 0x00; 0x81; 0x50; 0xAA; 0xBB])
           (mkScript [0xAA; 0xBB]) (mkScript [])
           [0x91; 0x04; 0x02; 0x00; 0x81; 0x50] [0xAA; 0xBB]);
    try reflexivity.
  cbn. lia.
Defined.

(** X8.  When the six-byte read fails, [ReadHeaderOnly] and [ReadData]
    return the transport's error after that single read. *)
Theorem header_read_error_is_returned :
  forall (T : Type) `{Unicomm T} (k : KDC101 (Recorder T)) (t1 : T) (e : error),
    comm_Read 6 (inner (Communication k)) = (t1, Err e) ->
    let k' := with_Communication k
                (mkRecorder t1 (trace (Communication k) ++ [ReadRequest 6])) in
    ReadHeaderOnly k = (k', Err e) /\ ReadData k = (k', Err e).
Proof.
  intros T HT k t1 e Hread k'.
  unfold ReadHeaderOnly, ReadData, bind, Communication_Read.
  cbn [comm_Read Recorder_Unicomm]. rewrite Hread. split; reflexivity.
Qed.

Lemma header_read_error_is_returned_witness :
  ReadData (bench MTS25Z8 Brushed [0x91; 0x04]) =
  (New MTS25Z8 Brushed (mkRecorder (mkScript [0x91; 0x04]) [ReadRequest 6]),
   Err (ErrTransport "read timeout")).
Proof.
  apply (@header_read_error_is_returned Script Script_Unicomm
           (bench MTS25Z8 Brushed [0x91; 0x04]) (mkScript [0x91; 0x04])
           (ErrTransport "read timeout")).
  reflexivity.
Defined.

(** X9.  When the header is read but the payload read fails, [ReadData]
    returns the transport's error after the two reads; no partial message is
    returned. *)
Theorem payload_read_error_is_returned :
  forall (T : Type) `{Unicomm T} (k : KDC101 (Recorder T)) (t1 t2 : T)
         (header : list Z) (e : error),
    comm_Read 6 (inner (Communication k)) = (t1, Ok header) ->
    length header = 6%nat ->
    1 <= declared_length header ->
    comm_Read (Z.to_nat (declared_length header)) t1 = (t2, Err e) ->
    ReadData k =
      (with_Communication k
         (mkRecorder t2 (trace (Communication k) ++
                         [ReadRequest 6; ReadRequest (Z.to_nat (declared_length header))])),
       Err e).
Proof.
  intros T HT k t1 t2 header e Hhead Hlen Hdecl Hbody.
  destruct header as [| b0 [| b1 [| b2 [| b3 [| b4 [| b5 [| ? ?]]]]]]];
    try discriminate Hlen.
  unfold declared_length in *. cbn [nth] in *.
  unfold ReadData, bind, Communication_Read.
  cbn [comm_Read Recorder_Unicomm]. rewrite Hhead.
  cbn [must index nth_error ret DataMessage.DataLength
       with_Communication Communication inner trace].
  destruct (Z.ltb_spec (Z.lor (Z.shiftl b3 8) b2) 1) as [Hlt | _]; [lia |].
  cbn [comm_Read Recorder_Unicomm Communication with_Communication inner trace].
  rewrite Hbody. unfold with_Communication.
  cbn. rewrite <- app_assoc. reflexivity.
Qed.

Lemma payload_read_error_is_returned_witness :
  ReadData (bench MTS25Z8 Brushed [0x91; 0x04; 0x02; 0x00; 0x81; 0x50; 0xAA]) =
  (New MTS25Z8 Brushed
     (mkRecorder (mkScript [0xAA]) [ReadRequest 6; ReadRequest 2]),
   Err (ErrTransport "read timeout")).
Proof.
  apply (@payload_read_error_is_returned Script Script_Unicomm
           (bench MTS25Z8 Brushed [0x91; 0x04; 0x02; 0x00; 0x81; 0x50; 0xAA])
           (mkScript [0xAA]) (mkScript [0xAA])
           [0x91; 0x04; 0x02; 0x00; 0x81; 0x50] (ErrTransport "read timeout"));
    try reflexivity.
  cbn. lia.
Defined.

(** X10.  Neither reader checks how many bytes the six-byte read returned:
    when the transport returns fewer than six without an error, both
    [ReadHeaderOnly] and [ReadData] panic on an index out of range. *)
Theorem short_header_panics :
  forall (T : Type) `{Unicomm T} (k : KDC101 T) (t1 : T) (response : list Z),
    comm_Read 6 (Communication k) = (t1, Ok response) ->
    (length response < 6)%nat ->
    ReadHeaderOnly k = (with_Communication k t1, Panic) /\
    ReadData k = (with_Communication k t1, Panic).
Proof.
  intros T HT k t1 response Hread Hshort.
  unfold ReadHeaderOnly, ReadData, bind, Communication_Read.
  rewrite Hread.
  do 6 (destruct response as [| ? response]; [split; reflexivity |]).
  cbn in Hshort. lia.
Qed.

Lemma short_header_panics_witness :
  ReadHeaderOnly (New MTS25Z8 Brushed (mkStream [0x12; 0x02; 0x01])) =
  (New MTS25Z8 Brushed (mkStream []), Panic).
Proof.
  apply (@short_header_panics Stream Stream_Unicomm
           (New MTS25Z8 Brushed (mkStream [0x12; 0x02; 0x01])) (mkStream [])
           [0x12; 0x02; 0x01]).
  - reflexivity.
  - cbn. lia.
Defined.

(** ** Transactions and commands *)

(** X11.  When the request cannot be written, [RequestHeaderOnly] and
    [RequestData] return the transport's error and attempt no read. *)
Theorem request_write_error_skips_read :
  forall (T : Type) `{Unicomm T} (k : KDC101 (Recorder T)) (t1 : T)
         (msg : HeaderMessage.t) (e : error),
    comm_Write (header_bytes msg) (inner (Communication k)) = (t1, Some e) ->
    let k' := with_Communication k
                (mkRecorder t1 (trace (Communication k) ++ [Written (header_bytes msg)])) in
    RequestHeaderOnly msg k = (k', Err e) /\
    RequestData msg k = (k', Err e) /\
    reads (trace (Communication k')) = reads (trace (Communication k)).
Proof.
  intros T HT k t1 msg e Hwrite k'.
  unfold RequestHeaderOnly, RequestData, WriteHeaderOnly, bind, Communication_Write.
  fold (header_bytes msg).
  cbn [comm_Write Recorder_Unicomm]. rewrite Hwrite.
  repeat split.
  unfold k'. cbn [with_Communication Communication trace].
  rewrite reads_app. cbn. apply app_nil_r.
Qed.

(** A device that refuses every write. *)
Lemma request_write_error_skips_read_witness :
  let refuse : Unicomm unit :=
    {| comm_Connect := fun s => (s, None);
       comm_Disconnect := fun s => (s, None);
       comm_IsConnected := fun _ => false;
       comm_Write := fun _ s => (s, Some (ErrTransport "port closed"));
       comm_Read := fun _ s => (s, Err (ErrTransport "port closed"));
       comm_Spare := fun _ => [] |} in
  @RequestData (Recorder unit) (@Recorder_Unicomm unit refuse)
     (command 0x0490 1 0x00) (New MTS25Z8 Brushed (mkRecorder tt [])) =
  (New MTS25Z8 Brushed
     (mkRecorder tt [Written [0x90; 0x04; 0x01; 0x00; 0x50; 0x01]]),
   Err (ErrTransport "port closed")).
Proof.
  intro refuse.
  apply (@request_write_error_skips_read unit refuse
           (New MTS25Z8 Brushed (mkRecorder tt [])) tt
           (command 0x0490 1 0x00) (ErrTransport "port closed")).
  reflexivity.
Defined.

Lemma Communication_Write_recorded {T : Type} `{Unicomm T}
      (k : KDC101 (Recorder T)) (bytes : list Z) :
  Communication_Write bytes k = after_write k bytes.
Proof.
  unfold Communication_Write, after_write.
  cbn [comm_Write Recorder_Unicomm].
  destruct (comm_Write bytes (inner (Communication k))) as [device e].
  reflexivity.
Qed.

(** X12.  On channel 1 each command that expects no reply makes exactly one
    transport call, the write of its six-byte header frame (destination
    [0x50], source [0x01], channel mask [0x01]), and returns what the write
    returned. *)
Theorem one_way_commands_write_one_frame :
  forall (T : Type) `{Unicomm T} (k : KDC101 (Recorder T)),
    Identify 1 k = after_write k [0x23; 0x02; 0x01; 0x00; 0x50; 0x01] /\
    (forall enable,
        Enable 1 enable k =
        after_write k [0x24; 0x02; 0x01; if enable then 0x01 else 0x02; 0x50; 0x01]) /\
    StartHomeMove 1 k = after_write k [0x43; 0x04; 0x01; 0x00; 0x50; 0x01] /\
    StartRelativeMove 1 k = after_write k [0x48; 0x04; 0x01; 0x00; 0x50; 0x01] /\
    StartAbsoluteMove 1 k = after_write k [0x53; 0x04; 0x01; 0x00; 0x50; 0x01] /\
    (forall direction,
        StartJogMove 1 direction k =
        after_write k [0x6A; 0x04; 0x01; direction; 0x50; 0x01]) /\
    (forall direction,
        MoveContinuous 1 direction k =
        after_write k [0x57; 0x04; 0x01; direction; 0x50; 0x01]) /\
    (forall mode,
        Stop 1 mode k = after_write k [0x65; 0x04; 0x01; mode; 0x50; 0x01]).
Proof.
  intros T HT k.
  repeat split; intros;
    unfold Identify, Enable, StartHomeMove, StartRelativeMove, StartAbsoluteMove,
      StartJogMove, MoveContinuous, Stop, WriteHeaderOnly;
    cbn [negb Z.eqb Pos.eqb];
    rewrite Communication_Write_recorded; reflexivity.
Qed.

(** X13.  On channel 1 each command carrying a position writes one data
    frame of twelve bytes: its id, the length field 6, destination [0xD0],
    source [0x01], then [0x01, 0x00] and the position counts as four
    little-endian bytes; it reads nothing and returns what the write
    returned. *)
Theorem position_commands_write_one_frame :
  forall (T : Type) `{Unicomm T} (k : KDC101 (Recorder T)) (position : float64),
    let counts := Utils.LongToBytes (PositionToCounts k position) in
    MoveRelativeDistance 1 position k =
      after_write k ([0x48; 0x04; 0x06; 0x00; 0xD0; 0x01; 0x01; 0x00] ++ counts) /\
    MoveAbsolutePosition 1 position k =
      after_write k ([0x53; 0x04; 0x06; 0x00; 0xD0; 0x01; 0x01; 0x00] ++ counts) /\
    SetRelativeMoveDistance 1 position k =
      after_write k ([0x45; 0x04; 0x06; 0x00; 0xD0; 0x01; 0x01; 0x00] ++ counts) /\
    SetAbsoluteMoveDistance 1 position k =
      after_write k ([0x50; 0x04; 0x06; 0x00; 0xD0; 0x01; 0x01; 0x00] ++ counts) /\
    length counts = 4%nat.
Proof.
  intros T HT k position counts.
  repeat split;
    unfold MoveRelativeDistance, MoveAbsolutePosition, SetRelativeMoveDistance,
      SetAbsoluteMoveDistance, WriteData, bind, self;
    cbn [negb Z.eqb Pos.eqb];
    rewrite Communication_Write_recorded; reflexivity.
Qed.

(** X14.  [IsEnabled 1] writes its request, reads six bytes, and answers
    [true] exactly when the fourth byte of the reply is [0x01]; no other
    byte of the reply is looked at. *)
Theorem is_enabled_reads_param2 :
  forall (T : Type) `{Unicomm T} (k : KDC101 (Recorder T)) (t1 t2 : T)
         (b0 b1 b2 b3 b4 b5 : Z),
    comm_Write [0x11; 0x02; 0x01; 0x00; 0x50; 0x01] (inner (Communication k)) =
      (t1, None) ->
    comm_Read 6 t1 = (t2, Ok [b0; b1; b2; b3; b4; b5]) ->
    IsEnabled 1 k =
      (with_Communication k
         (mkRecorder t2 (trace (Communication k) ++
                         [Written [0x11; 0x02; 0x01; 0x00; 0x50; 0x01]; ReadRequest 6])),
       Ok (b3 =? 0x01)).
Proof.
  intros T HT k t1 t2 b0 b1 b2 b3 b4 b5 Hwrite Hread.
  unfold IsEnabled, RequestHeaderOnly, WriteHeaderOnly, ReadHeaderOnly, Sleep,
    Communication_Write, Communication_Read, bind, ret.
  cbn [negb Z.eqb Pos.eqb comm_Write comm_Read Recorder_Unicomm].
  change (comm_Write _ (inner (Communication k)))
    with (comm_Write [0x11; 0x02; 0x01; 0x00; 0x50; 0x01] (inner (Communication k))).
  rewrite Hwrite.
  cbn [Communication with_Communication inner trace]. rewrite Hread.
  cbn [must index nth_error ret HeaderMessage.Parameter2].
  unfold with_Communication. cbn. rewrite <- app_assoc. reflexivity.
Qed.

Lemma is_enabled_reads_param2_witness :
  IsEnabled 1 (bench MTS25Z8 Brushed [0x12; 0x02; 0x01; 0x01; 0x01; 0x50]) =
  (New MTS25Z8 Brushed
     (mkRecorder (mkScript [])
        [Written [0x11; 0x02; 0x01; 0x00; 0x50; 0x01]; ReadRequest 6]),
   Ok true).
Proof.
  apply (@is_enabled_reads_param2 Script Script_Unicomm
           (bench MTS25Z8 Brushed [0x12; 0x02; 0x01; 0x01; 0x01; 0x50])
           (mkScript [0x12; 0x02; 0x01; 0x01; 0x01; 0x50]) (mkScript [])
           0x12 0x02 0x01 0x01 0x01 0x50);
    reflexivity.
Defined.

(** ** Replies *)

Lemma RequestData_answers {T : Type} `{Unicomm T} (k : KDC101 T)
      (msg : HeaderMessage.t) (header payload : list Z) (c' : T) :
  answers (Communication k) (header_bytes msg) header payload c' ->
  RequestData msg k = (with_Communication k c', Ok (data_message_of header payload)).
Proof.
  intros (t1 & t2 & Hwrite & Hhead & Hlen & Hdecl & Hbody).
  destruct header as [| b0 [| b1 [| b2 [| b3 [| b4 [| b5 [| ? ?]]]]]]];
    try discriminate Hlen.
  unfold declared_length in *. cbn [nth] in *.
  unfold RequestData, WriteHeaderOnly, ReadData, Sleep,
    Communication_Write, Communication_Read, bind, ret.
  fold (header_bytes msg). rewrite Hwrite.
  cbn [Communication with_Communication]. rewrite Hhead.
  cbn [must index nth_error ret DataMessage.DataLength
       Communication with_Communication].
  destruct (Z.ltb_spec (Z.lor (Z.shiftl b3 8) b2) 1) as [Hlt | _]; [lia |].
  cbn [Communication with_Communication]. rewrite Hbody. reflexivity.
Qed.

(** The scripted device answers any request with the header and payload it
    holds. *)
Lemma Script_answers (request header payload : list Z) :
  length header = 6%nat ->
  1 <= declared_length header ->
  Z.to_nat (declared_length header) = length payload ->
  answers (mkScript (header ++ payload)) request header payload (mkScript []).
Proof.
  intros Hlen Hdecl Hsize.
  exists (mkScript (header ++ payload)), (mkScript payload).
  repeat split; try assumption.
  - rewrite <- Hlen. apply Script_read_app.
  - rewrite Hsize. rewrite <- (app_nil_r payload) at 2. apply Script_read_app.
Qed.

(** X15.  [GetTrapezoidalVelocity 1] returns the invalid-response-length
    error, and does not panic, when the reply's payload has fewer than 14
    bytes. *)
Theorem velocity_reply_too_short :
  forall (T : Type) `{Unicomm T} (k : KDC101 T) (c' : T) (header payload : list Z),
    answers (Communication k) [0x14; 0x04; 0x01; 0x00; 0x50; 0x01] header payload c' ->
    (length payload < 14)%nat ->
    GetTrapezoidalVelocity 1 k = (with_Communication k c', Err ErrInvalidResponseLength).
Proof.
  intros T HT k c' header payload Hanswers Hshort.
  unfold GetTrapezoidalVelocity, bind. cbn [negb Z.eqb Pos.eqb].
  rewrite (RequestData_answers k (command 0x0414 1 0x00) header payload c' Hanswers).
  cbn [data_message_of DataMessage.Data].
  destruct (Nat.ltb_spec (length payload) 14) as [_ | Hge]; [reflexivity | lia].
Qed.

Lemma velocity_reply_too_short_witness :
  GetTrapezoidalVelocity 1
    (New MTS25Z8 Brushed (mkScript ([0x15; 0x04; 0x02; 0x00; 0x81; 0x50] ++ [0x01; 0x00]))) =
  (New MTS25Z8 Brushed (mkScript []), Err ErrInvalidResponseLength).
Proof.
  apply (@velocity_reply_too_short Script Script_Unicomm
           (New MTS25Z8 Brushed
              (mkScript ([0x15; 0x04; 0x02; 0x00; 0x81; 0x50] ++ [0x01; 0x00])))
           (mkScript []) [0x15; 0x04; 0x02; 0x00; 0x81; 0x50] [0x01; 0x00]).
  - apply Script_answers; cbn; try reflexivity; lia.
  - cbn. lia.
Defined.

(** X16.  [GetJogParameters 1] returns the invalid-response-length error,
    and does not panic, when the reply's payload has fewer than 22 bytes. *)
Theorem jog_reply_too_short :
  forall (T : Type) `{Unicomm T} (k : KDC101 T) (c' : T) (header payload : list Z),
    answers (Communication k) [0x17; 0x04; 0x01; 0x00; 0x50; 0x01] header payload c' ->
    (length payload < 22)%nat ->
    GetJogParameters 1 k = (with_Communication k c', Err ErrInvalidResponseLength).
Proof.
  intros T HT k c' header payload Hanswers Hshort.
  unfold GetJogParameters, bind. cbn [negb Z.eqb Pos.eqb].
  rewrite (RequestData_answers k (command 0x0417 1 0x00) header payload c' Hanswers).
  cbn [data_message_of DataMessage.Data].
  destruct (Nat.ltb_spec (length payload) 22) as [_ | Hge]; [reflexivity | lia].
Qed.

Lemma jog_reply_too_short_witness :
  GetJogParameters 1
    (New MTS25Z8 Brushed (mkScript ([0x18; 0x04; 0x02; 0x00; 0x81; 0x50] ++ [0x01; 0x00]))) =
  (New MTS25Z8 Brushed (mkScript []), Err ErrInvalidResponseLength).
Proof.
  apply (@jog_reply_too_short Script Script_Unicomm
           (New MTS25Z8 Brushed
              (mkScript ([0x18; 0x04; 0x02; 0x00; 0x81; 0x50] ++ [0x01; 0x00])))
           (mkScript []) [0x18; 0x04; 0x02; 0x00; 0x81; 0x50] [0x01; 0x00]).
  - apply Script_answers; cbn; try reflexivity; lia.
  - cbn. lia.
Defined.

(** X17.  [GetRelativeMoveDistance 1] and [GetAbsoluteMoveDistance 1] return
    the invalid-response-length error, and do not panic, when the reply's
    payload has fewer than 6 bytes. *)
Theorem distance_reply_too_short :
  forall (T : Type) `{Unicomm T} (k : KDC101 T) (c1 c2 : T)
         (header1 header2 payload1 payload2 : list Z),
    answers (Communication k) [0x46; 0x04; 0x01; 0x00; 0x50; 0x01] header1 payload1 c1 ->
    answers (Communication k) [0x51; 0x04; 0x01; 0x00; 0x50; 0x01] header2 payload2 c2 ->
    (length payload1 < 6)%nat ->
    (length payload2 < 6)%nat ->
    GetRelativeMoveDistance 1 k = (with_Communication k c1, Err ErrInvalidResponseLength) /\
    GetAbsoluteMoveDistance 1 k = (with_Communication k c2, Err ErrInvalidResponseLength).
Proof.
  intros T HT k c1 c2 header1 header2 payload1 payload2 Hrel Habs Hshort1 Hshort2.
  unfold GetRelativeMoveDistance, GetAbsoluteMoveDistance, bind.
  cbn [negb Z.eqb Pos.eqb].
  rewrite (RequestData_answers k (command 0x0446 1 0x00) header1 payload1 c1 Hrel).
  rewrite (RequestData_answers k (command 0x0451 1 0x00) header2 payload2 c2 Habs).
  cbn [data_message_of DataMessage.Data].
  destruct (Nat.ltb_spec (length payload1) 6) as [_ | Hge]; [| lia].
  destruct (Nat.ltb_spec (length payload2) 6) as [_ | Hge]; [| lia].
  split; reflexivity.
Qed.

Lemma distance_reply_too_short_witness :
  GetRelativeMoveDistance 1
    (New MTS25Z8 Brushed (mkScript ([0x47; 0x04; 0x02; 0x00; 0x81; 0x50] ++ [0x01; 0x00]))) =
  (New MTS25Z8 Brushed (mkScript []), Err ErrInvalidResponseLength).
Proof.
  apply (@distance_reply_too_short Script Script_Unicomm
           (New MTS25Z8 Brushed
              (mkScript ([0x47; 0x04; 0x02; 0x00; 0x81; 0x50] ++ [0x01; 0x00])))
           (mkScript []) (mkScript [])
           [0x47; 0x04; 0x02; 0x00; 0x81; 0x50] [0x47; 0x04; 0x02; 0x00; 0x81; 0x50]
           [0x01; 0x00] [0x01; 0x00]).
  - apply Script_answers; cbn; try reflexivity; lia.
  - apply Script_answers; cbn; try reflexivity; lia.
  - cbn. lia.
  - cbn. lia.
Defined.

(** X18.  [GetInformation] returns its own invalid-response-length error,
    and does not panic, when the reply's payload has fewer than 84 bytes. *)
Theorem information_reply_too_short :
  forall (T : Type) `{Unicomm T} (k : KDC101 T) (c' : T) (header payload : list Z),
    answers (Communication k) [0x05; 0x00; 0x00; 0x00; 0x50; 0x01] header payload c' ->
    (length payload < 84)%nat ->
    GetInformation k = (with_Communication k c', Err ErrHwInfoLength).
Proof.
  intros T HT k c' header payload Hanswers Hshort.
  unfold GetInformation, bind.
  rewrite (RequestData_answers k (HeaderMessage.mk 0x0005 0x00 0x00 GenericUnit Host)
             header payload c' Hanswers).
  cbn [data_message_of DataMessage.Data].
  destruct (Nat.ltb_spec (length payload) 84) as [_ | Hge]; [reflexivity | lia].
Qed.

Lemma information_reply_too_short_witness :
  GetInformation
    (New MTS25Z8 Brushed (mkScript ([0x06; 0x00; 0x02; 0x00; 0x81; 0x50] ++ [0x01; 0x00]))) =
  (New MTS25Z8 Brushed (mkScript []), Err ErrHwInfoLength).
Proof.
  apply (@information_reply_too_short Script Script_Unicomm
           (New MTS25Z8 Brushed
              (mkScript ([0x06; 0x00; 0x02; 0x00; 0x81; 0x50] ++ [0x01; 0x00])))
           (mkScript []) [0x06; 0x00; 0x02; 0x00; 0x81; 0x50] [0x01; 0x00]).
  - apply Script_answers; cbn; try reflexivity; lia.
  - cbn. lia.
Defined.

(** ** Values read back from the device *)

Lemma int32_small (v : Z) : is_int32 v -> int32 v = v.
Proof.
  unfold is_int32, int32. intros Hv.
  change (2 ^ 31) with 2147483648 in *. change (2 ^ 32) with 4294967296 in *.
  destruct (Z.ltb_spec (v mod 4294967296) 2147483648);
    Z.div_mod_to_equations; lia.
Qed.

Lemma BytesToLong_of_counts (counts : Z) :
  is_int32 counts ->
  Utils.BytesToLong (Utils.LongToBytes counts) = Some counts.
Proof.
  intros Hc. unfold Utils.BytesToLong, Utils.LongToBytes.
  rewrite Uint32_PutUint32 by (apply Z.mod_pos_bound; lia).
  cbn [option_map]. rewrite int32_of_uint32 by assumption. reflexivity.
Qed.

Lemma PositionToCounts_range {T} (k : KDC101 T) (position : float64) :
  is_int32 (PositionToCounts k position).
Proof.
  unfold PositionToCounts, float_to_int32, is_int32.
  destruct (float_trunc _) as [z |]; [| lia].
  destruct (Z.leb_spec (- 2 ^ 31) z), (Z.ltb_spec z (2 ^ 31)); cbn [andb]; lia.
Qed.

Lemma VelocityToCounts_range {T} (k : KDC101 T) (velocity : float64) :
  is_uint32 (VelocityToCounts k velocity).
Proof. apply float_to_uint32_range. Qed.

Lemma AccelerationToCounts_range {T} (k : KDC101 T) (acceleration : float64) :
  is_uint32 (AccelerationToCounts k acceleration).
Proof. apply float_to_uint32_range. Qed.

(** X19.  A distance set and read back: when the device answers the get
    request with the six payload bytes the set command sends for a position,
    [GetRelativeMoveDistance] and [GetAbsoluteMoveDistance] return that
    position's counts converted back to a position. *)
Theorem distance_read_back :
  forall (T : Type) `{Unicomm T} (k : KDC101 T) (c1 c2 : T)
         (header1 header2 : list Z) (position : float64),
    let payload := [0x01; 0x00] ++ Utils.LongToBytes (PositionToCounts k position) in
    answers (Communication k) [0x46; 0x04; 0x01; 0x00; 0x50; 0x01] header1 payload c1 ->
    answers (Communication k) [0x51; 0x04; 0x01; 0x00; 0x50; 0x01] header2 payload c2 ->
    GetRelativeMoveDistance 1 k =
      (with_Communication k c1, Ok (CountsToPosition k (PositionToCounts k position))) /\
    GetAbsoluteMoveDistance 1 k =
      (with_Communication k c2, Ok (CountsToPosition k (PositionToCounts k position))).
Proof.
  intros T HT k c1 c2 header1 header2 position payload Hrel Habs.
  pose proof (BytesToLong_of_counts _ (PositionToCounts_range k position)) as Hback.
  unfold GetRelativeMoveDistance, GetAbsoluteMoveDistance, bind.
  cbn [negb Z.eqb Pos.eqb].
  rewrite (RequestData_answers k (command 0x0446 1 0x00) header1 payload c1 Hrel).
  rewrite (RequestData_answers k (command 0x0451 1 0x00) header2 payload c2 Habs).
  cbn [data_message_of DataMessage.Data].
  change (length payload <? 6)%nat with false. cbv iota.
  unfold self. cbv beta iota.
  rewrite !field_run, !slice_within by (cbn; lia).
  change (firstn (6 - 2) (skipn 2 payload))
    with (Utils.LongToBytes (PositionToCounts k position)).
  rewrite Hback. unfold ret.
  rewrite int32_small by apply PositionToCounts_range.
  split; reflexivity.
Qed.

Lemma distance_read_back_witness :
  let k := New MTS25Z8 Brushed
             (mkScript ([0x47; 0x04; 0x06; 0x00; 0x81; 0x50] ++
                        [0x01; 0x00; 0xCD; 0x45; 0x05; 0x00])) in
  GetRelativeMoveDistance 1 k =
  (New MTS25Z8 Brushed (mkScript []),
   Ok (CountsToPosition k (PositionToCounts k 10%float))).
Proof.
  intro k.
  assert (Hanswers : forall request,
             answers (Communication k) request [0x47; 0x04; 0x06; 0x00; 0x81; 0x50]
               ([0x01; 0x00] ++ Utils.LongToBytes (PositionToCounts k 10%float))
               (mkScript [])).
  { intro request.
    apply (Script_answers request [0x47; 0x04; 0x06; 0x00; 0x81; 0x50]
             [0x01; 0x00; 0xCD; 0x45; 0x05; 0x00]);
      cbn; try reflexivity; lia. }
  exact (proj1 (@distance_read_back Script Script_Unicomm k (mkScript []) (mkScript [])
                  _ _ 10%float (Hanswers _) (Hanswers _))).
Defined.

(** X20.  A velocity profile set and read back: when the device answers the
    get request with the 14 payload bytes [SetTrapezoidalVelocity] sends,
    the profile returned has the velocities of the counts that were sent,
    and the acceleration of the sent count reinterpreted as a signed 32-bit
    integer. *)
Theorem velocity_profile_read_back :
  forall (T : Type) `{Unicomm T} (k : KDC101 T) (c' : T) (header : list Z)
         (profile : VelocityProfile.t),
    answers (Communication k) [0x14; 0x04; 0x01; 0x00; 0x50; 0x01] header
      (velocity_payload k profile) c' ->
    GetTrapezoidalVelocity 1 k =
      (with_Communication k c',
       Ok {| VelocityProfile.MinVelocity :=
               CountsToVelocity k
                 (VelocityToCounts k (VelocityProfile.MinVelocity profile));
             VelocityProfile.Acceleration :=
               CountsToAcceleration k
                 (int32 (AccelerationToCounts k (VelocityProfile.Acceleration profile)));
             VelocityProfile.MaxVelocity :=
               CountsToVelocity k
                 (VelocityToCounts k (VelocityProfile.MaxVelocity profile)) |}).
Proof.
  intros T HT k c' header profile Hanswers.
  pose proof (Uint32_PutUint32 _
                (VelocityToCounts_range k (VelocityProfile.MinVelocity profile))) as Hmin.
  pose proof (Uint32_PutUint32 _
                (VelocityToCounts_range k (VelocityProfile.MaxVelocity profile))) as Hmax.
  pose proof (Uint32_PutUint32 _
                (AccelerationToCounts_range k (VelocityProfile.Acceleration profile))) as Hacc.
  unfold GetTrapezoidalVelocity, bind. cbn [negb Z.eqb Pos.eqb].
  rewrite (RequestData_answers k (command 0x0414 1 0x00) header _ c' Hanswers).
  cbn [data_message_of DataMessage.Data].
  change (length (velocity_payload k profile) <? 14)%nat with false. cbv iota.
  unfold self. cbv beta iota.
  rewrite field_run, slice_within by (cbn; lia).
  change (firstn (6 - 2) (skipn 2 (velocity_payload k profile)))
    with (Utils.DwordToBytes
            (VelocityToCounts k (VelocityProfile.MinVelocity profile))).
  unfold Utils.BytesToDword at 1, Utils.DwordToBytes at 1.
  rewrite Hmin. cbv beta iota.
  rewrite field_run, slice_within by (cbn; lia).
  change (firstn (10 - 6) (skipn 6 (velocity_payload k profile)))
    with (Utils.DwordToBytes
            (AccelerationToCounts k (VelocityProfile.Acceleration profile))).
  unfold Utils.BytesToLong, Utils.DwordToBytes at 1.
  rewrite Hacc. cbn [option_map]. cbv beta iota.
  rewrite field_run, slice_within by (cbn; lia).
  change (firstn (14 - 10) (skipn 10 (velocity_payload k profile)))
    with (Utils.DwordToBytes
            (VelocityToCounts k (VelocityProfile.MaxVelocity profile))).
  unfold Utils.BytesToDword, Utils.DwordToBytes.
  rewrite Hmax. reflexivity.
Qed.

Lemma velocity_profile_read_back_witness :
  let profile := {| VelocityProfile.MinVelocity := 0%float;
                    VelocityProfile.MaxVelocity := 2%float;
                    VelocityProfile.Acceleration := 1.5%float |} in
  let k := New MTS25Z8 Brushed
             (mkScript ([0x15; 0x04; 0x0E; 0x00; 0x81; 0x50] ++
                        velocity_payload (New MTS25Z8 Brushed tt) profile)) in
  exists profile',
    GetTrapezoidalVelocity 1 k = (New MTS25Z8 Brushed (mkScript []), Ok profile').
Proof.
  intros profile k. eexists.
  apply (@velocity_profile_read_back Script Script_Unicomm k (mkScript [])
           [0x15; 0x04; 0x0E; 0x00; 0x81; 0x50] profile).
  apply (Script_answers _ [0x15; 0x04; 0x0E; 0x00; 0x81; 0x50]
           (velocity_payload k profile));
    cbn; try reflexivity; lia.
Defined.

(** X21.  On channel 1 [SetTrapezoidalVelocity] writes one data frame of 20
    bytes (length field 14) and [SetJogParameters] one of 28 bytes (length
    field 22), each with destination [0xD0] and source [0x01]; they read
    nothing and return what the write returned. *)
Theorem profile_commands_write_one_frame :
  forall (T : Type) `{Unicomm T} (k : KDC101 (Recorder T))
         (profile : VelocityProfile.t) (params : JogParameters.t),
    SetTrapezoidalVelocity 1 profile k =
      after_write k ([0x13; 0x04; 0x0E; 0x00; 0xD0; 0x01] ++ velocity_payload k profile) /\
    SetJogParameters 1 params k =
      after_write k ([0x16; 0x04; 0x16; 0x00; 0xD0; 0x01] ++ jog_payload k params) /\
    length (velocity_payload k profile) = 14%nat /\
    length (jog_payload k params) = 22%nat.
Proof.
  intros T HT k profile params.
  repeat split;
    unfold SetTrapezoidalVelocity, SetJogParameters, WriteData, bind, self;
    cbn [negb Z.eqb Pos.eqb];
    rewrite Communication_Write_recorded; reflexivity.
Qed.

(** X22.  Jog parameters set and read back: when the device answers the get
    request with the 22 payload bytes [SetJogParameters] sends, the mode and
    the stop mode come back unchanged, the step size and the velocities as
    the conversions of the counts that were sent, and the acceleration as
    that of the sent count reinterpreted as a signed 32-bit integer. *)
Theorem jog_parameters_read_back :
  forall (T : Type) `{Unicomm T} (k : KDC101 T) (c' : T) (header : list Z)
         (params : JogParameters.t),
    is_uint16 (JogParameters.Mode params) ->
    is_uint16 (JogParameters.StopMode params) ->
    answers (Communication k) [0x17; 0x04; 0x01; 0x00; 0x50; 0x01] header
      (jog_payload k params) c' ->
    GetJogParameters 1 k =
      (with_Communication k c',
       Ok {| JogParameters.Mode := JogParameters.Mode params;
             JogParameters.StepSize :=
               CountsToPosition k (PositionToCounts k (JogParameters.StepSize params));
             JogParameters.MinVelocity :=
               CountsToVelocity k (VelocityToCounts k (JogParameters.MinVelocity params));
             JogParameters.Acceleration :=
               CountsToAcceleration k
                 (int32 (AccelerationToCounts k (JogParameters.Acceleration params)));
             JogParameters.MaxVelocity :=
               CountsToVelocity k (VelocityToCounts k (JogParameters.MaxVelocity params));
             JogParameters.StopMode := JogParameters.StopMode params |}).
Proof.
  intros T HT k c' header params Hmode Hstop Hanswers.
  pose proof (Uint16_PutUint16 _ Hmode) as Hm.
  pose proof (Uint16_PutUint16 _ Hstop) as Hs.
  pose proof (BytesToLong_of_counts _
                (PositionToCounts_range k (JogParameters.StepSize params))) as Hstep.
  pose proof (Uint32_PutUint32 _
                (VelocityToCounts_range k (JogParameters.MinVelocity params))) as Hmin.
  pose proof (Uint32_PutUint32 _
                (VelocityToCounts_range k (JogParameters.MaxVelocity params))) as Hmax.
  pose proof (Uint32_PutUint32 _
                (AccelerationToCounts_range k (JogParameters.Acceleration params))) as Hacc.
  unfold GetJogParameters, bind. cbn [negb Z.eqb Pos.eqb].
  rewrite (RequestData_answers k (command 0x0417 1 0x00) header _ c' Hanswers).
  cbn [data_message_of DataMessage.Data].
  change (length (jog_payload k params) <? 22)%nat with false. cbv iota.
  unfold self. cbv beta iota.
  rewrite (field_within Utils.BytesToWord _ 2 4 _ (JogParameters.Mode params))
    by (cbn; try lia; exact Hm).
  cbv beta iota.
  rewrite (field_within Utils.BytesToLong _ 4 8 _
             (PositionToCounts k (JogParameters.StepSize params)))
    by (cbn; try lia; exact Hstep).
  cbv beta iota.
  rewrite (field_within Utils.BytesToDword _ 8 12 _
             (VelocityToCounts k (JogParameters.MinVelocity params)))
    by (cbn; try lia; exact Hmin).
  cbv beta iota.
  rewrite (field_within Utils.BytesToLong _ 12 16 _
             (int32 (AccelerationToCounts k (JogParameters.Acceleration params))))
    by (cbn; try lia;
        change (option_map int32
                  (Utils.LittleEndian_Uint32
                     (Utils.LittleEndian_PutUint32
                        (AccelerationToCounts k (JogParameters.Acceleration params)))) =
                Some (int32 (AccelerationToCounts k (JogParameters.Acceleration params))));
        rewrite Hacc; reflexivity).
  cbv beta iota.
  rewrite (field_within Utils.BytesToDword _ 16 20 _
             (VelocityToCounts k (JogParameters.MaxVelocity params)))
    by (cbn; try lia; exact Hmax).
  cbv beta iota.
  rewrite (field_within Utils.BytesToWord _ 20 22 _ (JogParameters.StopMode params))
    by (cbn; try lia; exact Hs).
  reflexivity.
Qed.

Lemma jog_parameters_read_back_witness :
  let params := {| JogParameters.Mode := 2;
                   JogParameters.StepSize := 0.5%float;
                   JogParameters.MinVelocity := 0%float;
                   JogParameters.Acceleration := 1.5%float;
                   JogParameters.MaxVelocity := 2%float;
                   JogParameters.StopMode := 1 |} in
  let k := New MTS25Z8 Brushed
             (mkScript ([0x18; 0x04; 0x16; 0x00; 0x81; 0x50] ++
                        jog_payload (New MTS25Z8 Brushed tt) params)) in
  exists params',
    GetJogParameters 1 k = (New MTS25Z8 Brushed (mkScript []), Ok params') /\
    JogParameters.Mode params' = 2 /\ JogParameters.StopMode params' = 1.
Proof.
  intros params k. eexists. split.
  - apply (@jog_parameters_read_back Script Script_Unicomm k (mkScript [])
             [0x18; 0x04; 0x16; 0x00; 0x81; 0x50] params).
    + unfold is_uint16. cbn. lia.
    + unfold is_uint16. cbn. lia.
    + apply (Script_answers _ [0x18; 0x04; 0x16; 0x00; 0x81; 0x50]
               (jog_payload k params));
        cbn; try reflexivity; lia.
  - split; reflexivity.
Defined.

(** X23.  [GetDCStatusUpdate 1] decodes the first 14 payload bytes at fixed
    offsets, little-endian: channel (2 bytes), position (4, signed),
    velocity (2), current (2, signed), status bits (4); payload bytes after
    the fourteenth are ignored. *)
Theorem dc_status_decoding :
  forall (T : Type) `{Unicomm T} (k : KDC101 T) (c' : T) (header rest : list Z)
         (p0 p1 p2 p3 p4 p5 p6 p7 p8 p9 p10 p11 p12 p13 : Z),
    answers (Communication k) dc_status_request header
      ([p0; p1; p2; p3; p4; p5; p6; p7; p8; p9; p10; p11; p12; p13] ++ rest) c' ->
    GetDCStatusUpdate 1 k =
      (with_Communication k c',
       Ok {| DCStatusUpdate.Channel := Z.lor p0 (Z.shiftl p1 8);
             DCStatusUpdate.Position :=
               int32 (Z.lor (Z.lor (Z.lor p2 (Z.shiftl p3 8)) (Z.shiftl p4 16))
                            (Z.shiftl p5 24));
             DCStatusUpdate.Velocity := Z.lor p6 (Z.shiftl p7 8);
             DCStatusUpdate.Current := int16 (Z.lor p8 (Z.shiftl p9 8));
             DCStatusUpdate.StatusBits :=
               Z.lor (Z.lor (Z.lor p10 (Z.shiftl p11 8)) (Z.shiftl p12 16))
                     (Z.shiftl p13 24) |}).
Proof.
  intros T HT k c' header rest p0 p1 p2 p3 p4 p5 p6 p7 p8 p9 p10 p11 p12 p13 Hanswers.
  unfold GetDCStatusUpdate, bind. cbn [negb Z.eqb Pos.eqb].
  rewrite (RequestData_answers k (command 0x0490 1 0x00) header _ c' Hanswers).
  reflexivity.
Qed.

Lemma dc_status_decoding_witness :
  GetDCStatusUpdate 1 (New MTS25Z8 Brushed (mkScript dc_status_reply)) =
  (New MTS25Z8 Brushed (mkScript []), Ok dc_status_raw).
Proof.
  apply (@dc_status_decoding Script Script_Unicomm
           (New MTS25Z8 Brushed (mkScript dc_status_reply)) (mkScript [])
           [0x91; 0x04; 0x0E; 0x00; 0x81; 0x50] []
           0x01 0x00 0x2E 0x4F 0x05 0x00 0x32 0x00 0xF6 0xFF 0x01 0x04 0x00 0x80).
  apply (Script_answers _ [0x91; 0x04; 0x0E; 0x00; 0x81; 0x50]
           [0x01; 0x00; 0x2E; 0x4F; 0x05; 0x00; 0x32; 0x00; 0xF6; 0xFF;
            0x01; 0x04; 0x00; 0x80]);
    cbn; try reflexivity; lia.
Defined.

(** ** The status word *)

Lemma bit_set_testbit (statusBits i : Z) :
  0 <= i -> bit_set statusBits (2 ^ i) = Z.testbit statusBits i.
Proof.
  intros Hi. unfold bit_set.
  destruct (Z.testbit statusBits i) eqn:Hbit.
  - destruct (Z.eqb_spec (Z.land statusBits (2 ^ i)) 0) as [Hzero | _]; [| reflexivity].
    apply (f_equal (fun z => Z.testbit z i)) in Hzero.
    rewrite Z.land_spec, Hbit, Z.pow2_bits_true, Z.bits_0 in Hzero by assumption.
    discriminate.
  - destruct (Z.eqb_spec (Z.land statusBits (2 ^ i)) 0) as [_ | Hnonzero]; [reflexivity |].
    exfalso. apply Hnonzero. apply Z.bits_inj'. intros n Hn.
    rewrite Z.land_spec, Z.bits_0.
    destruct (Z.eq_dec i n) as [<- | Hdiff].
    + rewrite Hbit. reflexivity.
    + rewrite Z.pow2_bits_false by assumption. apply andb_false_r.
Qed.

Lemma bit_set_masked (statusBits mask : Z) :
  Z.land flag_bits mask = mask ->
  bit_set (Z.land statusBits flag_bits) mask = bit_set statusBits mask.
Proof.
  intros Hmask. unfold bit_set.
  rewrite <- Z.land_assoc, Hmask. reflexivity.
Qed.

Lemma ParseDCStatusBits_masked (statusBits : Z) :
  ParseDCStatusBits (Z.land statusBits flag_bits) = ParseDCStatusBits statusBits.
Proof.
  unfold ParseDCStatusBits.
  rewrite !bit_set_masked by reflexivity. reflexivity.
Qed.

(** X24.  The decoder loses exactly the reserved bits: two status words
    decode to the same flags if and only if they agree on every bit other
    than bits 20 to 23. *)
Theorem status_flags_determine_flag_bits (a b : Z) :
  ParseDCStatusBits a = ParseDCStatusBits b <->
  Z.land a flag_bits = Z.land b flag_bits.
Proof.
  split.
  - intros Hflags.
    assert (Hbits : forall i, 0 <= i -> Z.testbit flag_bits i = true ->
                              Z.testbit a i = Z.testbit b i).
    { intros i Hi Hflag.
      assert (Hi32 : i < 32).
      { destruct (Z.lt_ge_cases i 32) as [Hlt | Hge]; [assumption |].
        rewrite Z.bits_above_log2 in Hflag
          by (change (Z.log2 flag_bits) with 31; unfold flag_bits; lia).
        discriminate. }
      unfold ParseDCStatusBits in Hflags.
      injection Hflags as H0 H1 H2 H3 H4 H5 H6 H7 H8 H9 H10 H11 H12 H13 H14 H15
                          H16 H17 H18 H19 H24 H25 H26 H27 H28 H29 H30 H31.
      rewrite <- !(bit_set_testbit _ i Hi).
      assert (Hcases : i = 0 \/ i = 1 \/ i = 2 \/ i = 3 \/ i = 4 \/ i = 5 \/ i = 6 \/
                       i = 7 \/ i = 8 \/ i = 9 \/ i = 10 \/ i = 11 \/ i = 12 \/
                       i = 13 \/ i = 14 \/ i = 15 \/ i = 16 \/ i = 17 \/ i = 18 \/
                       i = 19 \/ i = 20 \/ i = 21 \/ i = 22 \/ i = 23 \/ i = 24 \/
                       i = 25 \/ i = 26 \/ i = 27 \/ i = 28 \/ i = 29 \/ i = 30 \/
                       i = 31) by lia.
      repeat (destruct Hcases as [-> | Hcases]; [try assumption; discriminate Hflag |]).
      subst i. assumption. }
    apply Z.bits_inj'. intros i Hi. rewrite !Z.land_spec.
    destruct (Z.testbit flag_bits i) eqn:Hflag.
    + rewrite (Hbits i Hi Hflag). reflexivity.
    + rewrite !andb_false_r. reflexivity.
  - intros Hsame.
    rewrite <- (ParseDCStatusBits_masked a), <- (ParseDCStatusBits_masked b), Hsame.
    reflexivity.
Qed.

(** ** Calibration lookups that miss *)

Lemma float_trunc_mul_zero (x : float64) :
  float_trunc (x * 0)%float = if not_finite x then None else Some 0.
Proof.
  unfold float_trunc, not_finite. rewrite mul_spec.
  change (Prim2SF 0) with (S754_zero false).
  destruct (Prim2SF x) as [[] | [] | | [] m e]; reflexivity.
Qed.

Lemma not_finite_div_zero (x : float64) : not_finite (x / 0)%float = true.
Proof.
  unfold not_finite. rewrite div_spec.
  change (Prim2SF 0) with (S754_zero false).
  destruct (Prim2SF x) as [[] | [] | | [] m e]; reflexivity.
Qed.

(** X25.  With a stage name that is not in the scaling table the controller
    still converts: every velocity and acceleration becomes the count 0,
    a finite position becomes the count 0 and a NaN or infinite one the
    count -2^31, and every count becomes a position that is an infinity or
    NaN (a division by the missing factor 0). *)
Theorem unsupported_stage_conversions :
  forall (T : Type) (k : KDC101 T) (value : float64) (counts : Z),
    map_get StageScalingFactor (StageType k) = None ->
    PositionToCounts k value = (if not_finite value then - 2 ^ 31 else 0) /\
    VelocityToCounts k value = 0 /\
    AccelerationToCounts k value = 0 /\
    not_finite (CountsToPosition k counts) = true.
Proof.
  intros T k value counts Hmiss.
  unfold PositionToCounts, VelocityToCounts, AccelerationToCounts, CountsToPosition,
    float_to_int32, float_to_uint32, map_index.
  rewrite Hmiss. rewrite !float_trunc_mul_zero.
  repeat split.
  - destruct (not_finite value); reflexivity.
  - destruct (not_finite _); reflexivity.
  - destruct (not_finite _); reflexivity.
  - apply not_finite_div_zero.
Qed.

Lemma unsupported_stage_conversions_witness :
  PositionToCounts (New "MTS99" Brushed tt) 10%float = 0 /\
  not_finite (CountsToPosition (New "MTS99" Brushed tt) 345549) = true.
Proof.
  destruct (unsupported_stage_conversions unit (New "MTS99" Brushed tt)
              10%float 345549 eq_refl) as (Hpos & _ & _ & Hinf).
  split; assumption.
Defined.

(** ** Hardware information *)

(** X26.  [GetInformation] reads a payload of at least 84 bytes at fixed
    offsets: serial number (bytes 0-3, signed), model (4-11), type (12-13),
    firmware version (14-17), then hardware version, mod state and channel
    count from bytes 78-83; bytes 18-77 and everything after byte 83 do not
    affect the result. *)
Theorem information_decoding :
  forall (T : Type) `{Unicomm T} (k : KDC101 T) (c' : T) (header unused rest : list Z)
         (a0 a1 a2 a3 a4 a5 a6 a7 a8 a9 a10 a11 a12 a13 a14 a15 a16 a17 : Z)
         (b0 b1 b2 b3 b4 b5 : Z),
    length unused = 60%nat ->
    answers (Communication k) [0x05; 0x00; 0x00; 0x00; 0x50; 0x01] header
      ([a0; a1; a2; a3; a4; a5; a6; a7; a8; a9; a10; a11; a12; a13; a14; a15; a16; a17]
       ++ unused ++ [b0; b1; b2; b3; b4; b5] ++ rest) c' ->
    GetInformation k =
      (with_Communication k c',
       Ok {| HwInformation.SerialNumber :=
               int32 (Z.lor (Z.lor (Z.lor a0 (Z.shiftl a1 8)) (Z.shiftl a2 16))
                            (Z.shiftl a3 24));
             HwInformation.Model := [a4; a5; a6; a7; a8; a9; a10; a11];
             HwInformation.Type_ := Z.lor a12 (Z.shiftl a13 8);
             HwInformation.FirmwareVersion := [a14; a15; a16; a17];
             HwInformation.HardwareVersion := Z.lor b0 (Z.shiftl b1 8);
             HwInformation.ModState := Z.lor b2 (Z.shiftl b3 8);
             HwInformation.NumberChannels := Z.lor b4 (Z.shiftl b5 8) |}).
Proof.
  intros T HT k c' header unused rest
         a0 a1 a2 a3 a4 a5 a6 a7 a8 a9 a10 a11 a12 a13 a14 a15 a16 a17
         b0 b1 b2 b3 b4 b5 Hunused Hanswers.
  unfold GetInformation, bind.
  rewrite (RequestData_answers k (HeaderMessage.mk 0x0005 0x00 0x00 GenericUnit Host)
             header _ c' Hanswers).
  clear Hanswers.
  do 60 (destruct unused as [| ? unused]; [discriminate Hunused |]).
  destruct unused; [| discriminate Hunused].
  reflexivity.
Qed.

Lemma information_decoding_witness :
  let payload := [0x15; 0xCD; 0x5B; 0x07] ++ [75; 68; 67; 49; 48; 49; 0; 0] ++
                 [0x10; 0x00] ++ [0x01; 0x02; 0x03; 0x00] ++ repeat 0 60 ++
                 [0x02; 0x00; 0x00; 0x00; 0x01; 0x00] in
  exists info,
    GetInformation
      (New MTS25Z8 Brushed (mkScript ([0x06; 0x00; 0x54; 0x00; 0x81; 0x50] ++ payload))) =
    (New MTS25Z8 Brushed (mkScript []), Ok info) /\
    HwInformation.SerialNumber info = 123456789 /\
    HwInformation.NumberChannels info = 1.
Proof.
  intro payload. eexists. split.
  - apply (@information_decoding Script Script_Unicomm
             (New MTS25Z8 Brushed (mkScript ([0x06; 0x00; 0x54; 0x00; 0x81; 0x50] ++ payload)))
             (mkScript []) [0x06; 0x00; 0x54; 0x00; 0x81; 0x50] (repeat 0 60) []
             0x15 0xCD 0x5B 0x07 75 68 67 49 48 49 0 0 0x10 0x00 0x01 0x02 0x03 0x00
             0x02 0x00 0x00 0x00 0x01 0x00).
    + reflexivity.
    + apply (Script_answers _ [0x06; 0x00; 0x54; 0x00; 0x81; 0x50] payload);
        cbn; try reflexivity; lia.
  - split; reflexivity.
Defined.
